(** * Matrix factorization tutorial: the data iterator and the RMSE metric

    A shallow embedding of the author-written code of
    [python/tutorials/matrix_factorization.ipynb]: the [Batch] container,
    the file-backed [DataIter], [max_id], [RMSE] and [test_RMSE], then
    [get_data], the data that [train] prepares and the three network
    graphs.

    Conventions of the embedding.
    - Python exceptions are values of [PyError]; a computation that may
      raise returns a [result].
    - Python [int] is [Z].  [Metric] reads the numbers of [RMSE] as real
      numbers ([R]), without rounding, infinities or NaN; [Dtype] runs
      [RMSE] and [test_RMSE] on the element types of the arrays, with
      double precision floats and 64-bit integers that wrap.
    - A [for] loop is [for_in]: the loop body is a state transformer that
      may raise, run over the iterated sequence from left to right.
    - A file is the list of its lines, as the file iterator hands them
      to the loop. *)

From Stdlib Require PrimFloat SpecFloat FloatOps.
From Stdlib Require Import Ascii String.
From Stdlib Require Import List ZArith Reals Lra Lia Bool Permutation.
Import ListNotations.

Set Implicit Arguments.

(** ** Exceptions *)

Inductive PyError : Set :=
| ZeroDivisionError
| ValueError
| IndexError
| AssertionError
| OverflowError.

Inductive result (A : Type) : Type :=
| Ok (a : A)
| Raise (e : PyError).

Arguments Ok {A} a.
Arguments Raise {A} e.

Definition bind {A B : Type} (m : result A) (k : A -> result B) : result B :=
  match m with
  | Ok a => k a
  | Raise e => Raise e
  end.

Declare Scope py_scope.
Delimit Scope py_scope with py.
Notation "x <- m ;; k" := (bind m (fun x => k))
  (at level 61, m at next level, right associativity) : py_scope.
Notation "' p <- m ;; k" := (bind m (fun x => let p := x in k))
  (at level 61, p pattern, m at next level, right associativity) : py_scope.
Open Scope py_scope.

Definition of_option {A : Type} (e : PyError) (o : option A) : result A :=
  match o with
  | Some a => Ok a
  | None => Raise e
  end.

(** ** Loops, ranges and indexing *)

(** [for x in xs: body], with the loop's variables as the state [s]. *)
Fixpoint for_in {I S : Type} (xs : list I) (body : I -> S -> result S) (s : S)
  : result S :=
  match xs with
  | [] => Ok s
  | x :: rest => s' <- body x s ;; for_in rest body s'
  end.

(** [range(n)]: empty when [n <= 0]. *)
Definition py_range (n : Z) : list Z :=
  map Z.of_nat (seq 0 (Z.to_nat n)).

Definition len {A : Type} (l : list A) : Z := Z.of_nat (length l).

(** [l[j]] on a list: a negative index counts from the end, an index out
    of range raises [IndexError]. *)
Definition getitem {A : Type} (l : list A) (j : Z) : result A :=
  let j' := if (j <? 0)%Z then (j + len l)%Z else j in
  if (j' <? 0)%Z then Raise IndexError
  else of_option IndexError (nth_error l (Z.to_nat j')).

(** ** Arrays

    An array of the framework (a numpy [ndarray] or an [mx.nd] array):
    its shape and its elements in row-major order. *)

Record ndarray (A : Type) : Type := mk_ndarray {
  shape : list Z;
  elems : list A
}.

(** [numpy.array(l)] of a flat list [l]: a one-dimensional array. *)
Definition nd_array {A : Type} (l : list A) : ndarray A :=
  {| shape := [len l]; elems := l |}.

(** [a.flatten()]: the same elements as a one-dimensional array. *)
Definition flatten {A : Type} (a : ndarray A) : ndarray A :=
  nd_array (elems a).

(** [a[i]] on a one-dimensional array. *)
Definition nd_getitem {A : Type} (a : ndarray A) (i : Z) : result A :=
  getitem (elems a) i.

(** ** Float operations that may raise *)

Open Scope R_scope.

(** [x / y] on floats. *)
Definition py_div (x y : R) : result R :=
  if Req_dec_T y 0 then Raise ZeroDivisionError else Ok (x / y).

(** [math.sqrt(x)]. *)
Definition math_sqrt (x : R) : result R :=
  if Rlt_dec x 0 then Raise ValueError else Ok (sqrt x).

(** ** RMSE *)

Module Metric.

(** The body of the loop of [RMSE]: the state is [(ret, n)]. *)
Definition RMSE_body (label : list R) (pred : ndarray R) (i : Z) (st : R * R)
  : result (R * R) :=
  let '(ret, n) := st in
  li <- getitem label i ;;
  pi <- nd_getitem pred i ;;
  Ok (ret + (li - pi) * (li - pi), n + 1).

Definition RMSE (label : list R) (pred : ndarray R) : result R :=
  let ret := 0 in
  let n := 0 in
  let pred := flatten pred in
  '(ret, n) <- for_in (py_range (len label)) (RMSE_body label pred) (ret, n) ;;
  q <- py_div ret n ;;
  math_sqrt q.

(** The body of the loop of [test_RMSE]; [pred] is a list there. *)
Definition test_RMSE_body (label pred : list R) (i : Z) (st : R * R)
  : result (R * R) :=
  let '(ret, n) := st in
  li <- getitem label i ;;
  pi <- getitem pred i ;;
  Ok (ret + (li - pi) * (li - pi), n + 1).

(** The value [math.sqrt(ret / n)] that [test_RMSE] compares with
    [expect_ret]. *)
Definition test_RMSE_value (label pred : list R) : result R :=
  let ret := 0 in
  let n := 0 in
  '(ret, n) <- for_in (py_range (len label)) (test_RMSE_body label pred) (ret, n) ;;
  q <- py_div ret n ;;
  math_sqrt q.

Definition test_RMSE (label pred : list R) (expect_ret : R) : result unit :=
  v <- test_RMSE_value label pred ;;
  if Req_dec_T v expect_ret then Ok tt else Raise AssertionError.

Definition test_cases : list (list R * list R) :=
  [ ([1; 2; 3; 4; 5], [2; 1; 3; 5; 6]);
    ([10; 10; 9; 9; 8], [10; 10; 9; 9; 8]);
    ([1; 5; 10; 15; 20], [6; 10; 5; 20; 25]) ].

Definition expect_res : result (list R) :=
  a <- math_sqrt 0.8 ;;
  b <- math_sqrt 0 ;;
  c <- math_sqrt 25 ;;
  Ok [a; b; c].

(** The loop that runs the three test cases. *)
Definition run_tests : result unit :=
  expected <- expect_res ;;
  for_in (combine test_cases expected)
         (fun '((label, pred), epc_res) (_ : unit) => test_RMSE label pred epc_res)
         tt.

(** The sum of [f 0], ..., [f (n - 1)]. *)
Fixpoint Rsum_below (n : nat) (f : nat -> R) : R :=
  match n with
  | O => 0
  | S k => Rsum_below k f + f k
  end.

(** The squared difference at position [i]. *)
Definition sq_diff (label pred : list R) (i : nat) : R :=
  Rsqr (nth i label 0 - nth i pred 0).

End Metric.

Close Scope R_scope.

(** ** Strings: [strip], [split] and [int]

    The byte-string operations of Python 2 that the loaders use. *)

Module PyStr.

Open Scope char_scope.

(** The characters that [str.strip()] removes and that [int()] skips:
    space, tab, line feed, vertical tab, form feed, carriage return. *)
Definition is_space (c : ascii) : bool :=
  let n := nat_of_ascii c in
  Nat.eqb n 32 || (Nat.leb 9 n && Nat.leb n 13).

Definition tab : ascii := ascii_of_nat 9.

Fixpoint lstrip (s : string) : string :=
  match s with
  | EmptyString => EmptyString
  | String c r => if is_space c then lstrip r else s
  end.

Fixpoint rstrip (s : string) : string :=
  match s with
  | EmptyString => EmptyString
  | String c r =>
      match rstrip r with
      | EmptyString => if is_space c then EmptyString else String c EmptyString
      | r' => String c r'
      end
  end.

(** [s.strip()] *)
Definition strip (s : string) : string := lstrip (rstrip s).

(** [s.split(sep)] for a one-character separator: every occurrence of
    [sep] ends a token, so the result is never empty. *)
Fixpoint split (sep : ascii) (s : string) : list string :=
  match s with
  | EmptyString => [EmptyString]
  | String c r =>
      if Ascii.eqb c sep then EmptyString :: split sep r
      else match split sep r with
           | [] => [String c EmptyString]
           | t :: ts => String c t :: ts
           end
  end.

Definition digit_of (c : ascii) : option Z :=
  let n := nat_of_ascii c in
  if Nat.leb 48 n && Nat.leb n 57 then Some (Z.of_nat (n - 48)) else None.

Fixpoint digits_value (acc : Z) (s : string) : option Z :=
  match s with
  | EmptyString => Some acc
  | String c r =>
      match digit_of c with
      | Some d => digits_value (10 * acc + d) r
      | None => None
      end
  end.

(** One decimal digit at least. *)
Definition unsigned_literal (s : string) : option Z :=
  match s with
  | EmptyString => None
  | _ => digits_value 0 s
  end.

(** The integer an [int(s)] call reads from a string, if any: blanks
    around the literal are skipped, a sign may precede the decimal digits
    (Python 2 also skips blanks between the sign and the digits). *)
Definition int_literal (s : string) : option Z :=
  match strip s with
  | String "-" r => option_map Z.opp (unsigned_literal (lstrip r))
  | String "+" r => unsigned_literal (lstrip r)
  | t => unsigned_literal t
  end.

(** [int(s)]: raises [ValueError] on anything else. *)
Definition py_int (s : string) : result Z :=
  of_option ValueError (int_literal s).

Close Scope char_scope.

End PyStr.

(** ** Integer arithmetic and item assignment *)

(** [a / b] on Python 2 integers: floor division. *)
Definition py_floordiv (a b : Z) : result Z :=
  if (b =? 0)%Z then Raise ZeroDivisionError else Ok (a / b)%Z.

(** [l[j] = v] on a list. *)
Definition setitem {A : Type} (l : list A) (j : Z) (v : A) : result (list A) :=
  let j' := if (j <? 0)%Z then (j + len l)%Z else j in
  if ((j' <? 0) || (len l <=? j'))%Z then Raise IndexError
  else Ok (firstn (Z.to_nat j') l ++ v :: skipn (S (Z.to_nat j')) l).

(** [xrange(a, b)] *)
Definition py_xrange (a b : Z) : list Z :=
  map (fun i => (a + i)%Z) (py_range (b - a)).

(** [random.shuffle(x)] of the standard library:
<<
    for i in reversed(xrange(1, len(x))):
        j = int(random() * (i+1))
        x[i], x[j] = x[j], x[i]
>>
    The generator is the function [choice]: at step [i] the draw
    [int(random() * (i+1))], a number of [0..i], is [choice i mod (i+1)]. *)
Definition shuffle_body {A : Type} (choice : Z -> Z) (i : Z) (x : list A)
  : result (list A) :=
  let j := (choice i mod (i + 1))%Z in
  xj <- getitem x j ;;
  xi <- getitem x i ;;
  x <- setitem x i xj ;;
  setitem x j xi.

Definition random_shuffle {A : Type} (choice : Z -> Z) (x : list A)
  : result (list A) :=
  for_in (rev (py_xrange 1 (len x))) (shuffle_body choice) x.

(** ** The batch container and the data iterator

    The rating column is read by [float()]; the type [Score] of its
    values and the conversion [py_float] (which gives [None] where
    [float()] raises [ValueError]) are parameters of the loader. *)

(** [mx.nd.array(l)] of a Python list: the framework stores the elements
    in its default element type, [float32], so every element goes through
    a conversion [conv]. *)
Definition mx_nd_array {A F : Type} (conv : A -> F) (l : list A) : ndarray F :=
  {| shape := [len l]; elems := map conv l |}.

Section Loader.

Variable Score : Type.
Variable py_float : string -> option Score.

(** The [float32] values of the framework's arrays, and the conversions
    of a Python [int] and of a Python [float] to them (both round). *)
Variable F32 : Type.
Variable f32_of_int : Z -> F32.
Variable f32_of_float : Score -> F32.

Open Scope string_scope.
Open Scope list_scope.

(** A name with a shape, the entries of [provide_data] and
    [provide_label]. *)
Definition desc : Type := (string * list Z)%type.

Record Batch : Type := mk_Batch {
  Batch_data_names : list string;
  Batch_data : list (ndarray F32);
  Batch_label_names : list string;
  Batch_label : list (ndarray F32)
}.

Definition Batch_provide_data (self : Batch) : list desc :=
  map (fun '(n, x) => (n, shape x))
      (combine (Batch_data_names self) (Batch_data self)).

Definition Batch_provide_label (self : Batch) : list desc :=
  map (fun '(n, x) => (n, shape x))
      (combine (Batch_label_names self) (Batch_label self)).

(** A rating record [(user, item, score)]. *)
Definition rating : Type := (Z * Z * Score)%type.

Record DataIter : Type := mk_DataIter {
  batch_size : Z;
  data : list rating;
  provide_data : list desc;
  provide_label : list desc
}.

(** [line.strip().split('\t')] *)
Definition tokens (line : string) : list string :=
  PyStr.split PyStr.tab (PyStr.strip line).

(** The body of the loop of [__init__] over the lines of the file; the
    state is [self.data]. *)
Definition init_body (line : string) (data : list rating) : result (list rating) :=
  let tks := tokens line in
  if negb (len tks =? 4)%Z then Ok data
  else
    t0 <- getitem tks 0 ;;
    user <- PyStr.py_int t0 ;;
    t1 <- getitem tks 1 ;;
    item <- PyStr.py_int t1 ;;
    t2 <- getitem tks 2 ;;
    score <- of_option ValueError (py_float t2) ;;
    Ok (data ++ [(user, item, score)]).

(** [DataIter(fname, batch_size)], on the lines of the file [fname]. *)
Definition DataIter_init (lines : list string) (batch_size : Z) : result DataIter :=
  data <- for_in lines init_body [] ;;
  Ok {| batch_size := batch_size;
        data := data;
        provide_data := [("user", [batch_size]); ("item", [batch_size])];
        provide_label := [("score", [batch_size])] |}.

(** The inner loop of [__iter__]; the state is [(users, items, scores)]. *)
Definition iter_inner_body (self : DataIter) (k i : Z)
  (st : list Z * list Z * list Score) : result (list Z * list Z * list Score) :=
  let '(users, items, scores) := st in
  let j := (k * batch_size self + i)%Z in
  '(user, item, score) <- getitem (data self) j ;;
  Ok (users ++ [user], items ++ [item], scores ++ [score]).

(** The outer loop of [__iter__]; the state is the list of the batches
    yielded so far. *)
Definition iter_body (self : DataIter) (k : Z) (yielded : list Batch)
  : result (list Batch) :=
  '(users, items, scores) <-
     for_in (py_range (batch_size self)) (iter_inner_body self k) ([], [], []) ;;
  let data_all := [mx_nd_array f32_of_int users; mx_nd_array f32_of_int items] in
  let label_all := [mx_nd_array f32_of_float scores] in
  let data_names := ["user"; "item"] in
  let label_names := ["score"] in
  let data_batch := mk_Batch data_names data_all label_names label_all in
  Ok (yielded ++ [data_batch]).

(** One full iteration: the batches that [__iter__] yields, in order. *)
Definition DataIter_iter (self : DataIter) : result (list Batch) :=
  m <- py_floordiv (len (data self)) (batch_size self) ;;
  for_in (py_range m) (iter_body self) [].

(** [reset]: [random.shuffle(self.data)] *)
Definition DataIter_reset (choice : Z -> Z) (self : DataIter) : result DataIter :=
  data <- random_shuffle choice (data self) ;;
  Ok {| batch_size := batch_size self;
        data := data;
        provide_data := provide_data self;
        provide_label := provide_label self |}.

(** The state of [max_id]'s loop is [(mu, mi)]. *)
Definition max_id_body (line : string) (st : Z * Z) : result (Z * Z) :=
  let '(mu, mi) := st in
  let tks := tokens line in
  if negb (len tks =? 4)%Z then Ok (mu, mi)
  else
    t0 <- getitem tks 0 ;;
    user <- PyStr.py_int t0 ;;
    let mu := Z.max mu user in
    t1 <- getitem tks 1 ;;
    item <- PyStr.py_int t1 ;;
    let mi := Z.max mi item in
    Ok (mu, mi).

(** [max_id(fname)], on the lines of the file [fname]. *)
Definition max_id (lines : list string) : result (Z * Z) :=
  let mu := 0%Z in
  let mi := 0%Z in
  '(mu, mi) <- for_in lines max_id_body (mu, mi) ;;
  Ok (mu + 1, mi + 1)%Z.

(** ** Vocabulary of the statements *)

Definition user (r : rating) : Z := fst (fst r).
Definition item (r : rating) : Z := snd (fst r).
Definition score (r : rating) : Score := snd r.

(** A line that [line.strip().split('\t')] cuts into four tokens. *)
Definition has4 (line : string) : bool := (len (tokens line) =? 4)%Z.

(** A record as the arrays of a batch store it. *)
Definition stored (r : rating) : F32 * F32 * F32 :=
  (f32_of_int (user r), f32_of_int (item r), f32_of_float (score r)).

(** The batch made of the records [rs]: parallel arrays of their users,
    items and scores under the names that [__iter__] gives them. *)
Definition batch_of (rs : list rating) : Batch :=
  mk_Batch ["user"; "item"]
           [mx_nd_array f32_of_int (map user rs);
            mx_nd_array f32_of_int (map item rs)]
           ["score"] [mx_nd_array f32_of_float (map score rs)].

(** The records that a batch holds, read back from its parallel arrays. *)
Definition records_of (B : Batch) : list (F32 * F32 * F32) :=
  match Batch_data B, Batch_label B with
  | [users; items], [scores] =>
      combine (combine (elems users) (elems items)) (elems scores)
  | _, _ => []
  end.

(** The records of [self.data] at the indices [k*b .. k*b + b - 1]. *)
Definition slice (self : DataIter) (k : nat) : list rating :=
  let b := Z.to_nat (batch_size self) in
  firstn b (skipn (k * b) (data self)).

(** The iterators that the program can hold: made by [DataIter(...)],
    then reset any number of times. *)
Inductive constructed : DataIter -> Prop :=
| constructed_init (lines : list string) (b : Z) (self : DataIter) :
    DataIter_init lines b = Ok self -> constructed self
| constructed_reset (choice : Z -> Z) (self self' : DataIter) :
    constructed self -> DataIter_reset choice self = Ok self' ->
    constructed self'.

(** Two lines with the same first three tokens. *)
Definition agree3 (l1 l2 : string) : Prop :=
  firstn 3 (tokens l1) = firstn 3 (tokens l2).

(** A four-token line reads as a record when its first two tokens are
    integer literals and its third is a float literal. *)
Definition reads_as (line : string) (r : rating) : Prop :=
  exists a b c d : string,
    tokens line = [a; b; c; d]
    /\ PyStr.py_int a = Ok (user r)
    /\ PyStr.py_int b = Ok (item r)
    /\ py_float c = Some (score r).

(** The user and item ids on the four-token lines of a file. *)
Definition ids_of_line (line : string) : list (Z * Z) :=
  match tokens line with
  | [a; b; _; _] =>
      match PyStr.int_literal a, PyStr.int_literal b with
      | Some u, Some i => [(u, i)]
      | _, _ => []
      end
  | _ => []
  end.

Definition ids_of (lines : list string) : list (Z * Z) :=
  flat_map ids_of_line lines.

(** Every four-token line starts with two integer literals. *)
Definition ids_readable (lines : list string) : bool :=
  forallb (fun line =>
             match tokens line with
             | [a; b; _; _] =>
                 match PyStr.int_literal a, PyStr.int_literal b with
                 | Some _, Some _ => true
                 | _, _ => false
                 end
             | _ => true
             end) lines.

(** The largest element of a list, and [0] for the empty list. *)
Definition maximum_or_zero (l : list Z) : Z :=
  match l with
  | [] => 0%Z
  | x :: rest => fold_left Z.max rest x
  end.

(** The largest of [0] and the elements of a list. *)
Definition maximum_with_zero (l : list Z) : Z := fold_left Z.max l 0%Z.

(** Every array of the batch holds [b] elements: two data arrays and one
    label array. *)
Definition arrays_of_size (b : Z) (B : Batch) : Prop :=
  length (Batch_data B) = 2%nat
  /\ length (Batch_label B) = 1%nat
  /\ (forall a, In a (Batch_data B) -> len (elems a) = b /\ shape a = [b])
  /\ (forall a, In a (Batch_label B) -> len (elems a) = b /\ shape a = [b]).

(** A line of a tab-separated file from its columns, with its line feed. *)
Definition tsv (columns : list string) : string :=
  String.concat (String PyStr.tab "") columns ++ String (ascii_of_nat 10) "".

End Loader.

(** [float()] on integer literals, the ratings of the MovieLens files;
    used to run the loader on example files. *)
Definition float_of_int_literal (s : string) : option R :=
  option_map IZR (PyStr.int_literal s).

(** ** The rest of the notebook *)

(** A string of blanks only. *)
Fixpoint all_space (w : string) : bool :=
  match w with
  | EmptyString => true
  | String c r => PyStr.is_space c && all_space r
  end.

(** The number of tab characters of a string. *)
Fixpoint count_tabs (s : string) : nat :=
  match s with
  | EmptyString => 0
  | String c r => (if Ascii.eqb c PyStr.tab then 1 else 0) + count_tabs r
  end.

(** Two lines with the same first two tokens. *)
Definition agree2 (l1 l2 : string) : Prop :=
  firstn 2 (tokens l1) = firstn 2 (tokens l2).

Section Notebook.

Variable Score : Type.
Variable py_float : string -> option Score.

(** [get_data(batch_size)], on the lines of [./ml-100k/u1.base] and of
    [./ml-100k/u1.test]. *)
Definition get_data (u1_base u1_test : list string) (batch_size : Z)
  : result (DataIter Score * DataIter Score) :=
  train <- DataIter_init py_float u1_base batch_size ;;
  test <- DataIter_init py_float u1_test batch_size ;;
  Ok (train, test).

(** The iterators that [train(network, batch_size, num_epoch,
    learning_rate)] hands to [model.fit]: the function assigns
    [batch_size = 64] before it calls [get_data]. *)
Definition train_data (u1_base u1_test : list string) (batch_size : Z)
  : result (DataIter Score * DataIter Score) :=
  let batch_size := 64%Z in
  '(train, test) <- get_data u1_base u1_test batch_size ;;
  Ok (train, test).

End Notebook.

(** *** The network graphs

    A symbol of the framework is the tree of the operator calls that
    built it. *)

Inductive Symbol : Type :=
| Var (name : string)
| Embedding (data : Symbol) (input_dim output_dim : Z)
| Activation (data : Symbol) (act_type : string)
| FullyConnected (data : Symbol) (num_hidden : Z)
| Dropout (data : Symbol) (p : R)
| Mul (lhs rhs : Symbol)
| sum_axis (data : Symbol) (axis : Z)
| Flatten (data : Symbol)
| LinearRegressionOutput (data label : Symbol).

Section Networks.

(** The globals [max_user] and [max_item]. *)
Variables max_user max_item : Z.

Open Scope string_scope.

Definition plain_net (k : Z) : Symbol :=
  let user := Var "user" in
  let item := Var "item" in
  let score := Var "score" in
  let user := Embedding user max_user k in
  let item := Embedding item max_item k in
  let pred := Mul user item in
  let pred := sum_axis pred 1 in
  let pred := Flatten pred in
  let pred := LinearRegressionOutput pred score in
  pred.

Definition get_one_layer_mlp (hidden k : Z) : Symbol :=
  let user := Var "user" in
  let item := Var "item" in
  let score := Var "score" in
  let user := Embedding user max_user k in
  let user := Activation user "relu" in
  let user := FullyConnected user hidden in
  let item := Embedding item max_item k in
  let item := Activation item "relu" in
  let item := FullyConnected item hidden in
  let pred := Mul user item in
  let pred := sum_axis pred 1 in
  let pred := Flatten pred in
  let pred := LinearRegressionOutput pred score in
  pred.

Definition get_one_layer_dropout_mlp (hidden k : Z) : Symbol :=
  let user := Var "user" in
  let item := Var "item" in
  let score := Var "score" in
  let user := Embedding user max_user k in
  let user := Activation user "relu" in
  let user := FullyConnected user hidden in
  let user := Dropout user 0.5 in
  let item := Embedding item max_item k in
  let item := Activation item "relu" in
  let item := FullyConnected item hidden in
  let item := Dropout item 0.5 in
  let pred := Mul user item in
  let pred := sum_axis pred 1 in
  let pred := Flatten pred in
  let pred := LinearRegressionOutput pred score in
  pred.

End Networks.

(** The variables that a symbol reads, from left to right. *)
Fixpoint variables (s : Symbol) : list string :=
  match s with
  | Var name => [name]
  | Embedding data _ _ => variables data
  | Activation data _ => variables data
  | FullyConnected data _ => variables data
  | Dropout data _ => variables data
  | Mul lhs rhs => variables lhs ++ variables rhs
  | sum_axis data _ => variables data
  | Flatten data => variables data
  | LinearRegressionOutput data label => variables data ++ variables label
  end.

(** The pairs [(id, input_dim)] of the embedding lookups of a symbol: the
    variable that is looked up and the size of the table. *)
Fixpoint embeddings (s : Symbol) : list (list string * Z) :=
  match s with
  | Var _ => []
  | Embedding data input_dim _ => (variables data, input_dim) :: embeddings data
  | Activation data _ => embeddings data
  | FullyConnected data _ => embeddings data
  | Dropout data _ => embeddings data
  | Mul lhs rhs => embeddings lhs ++ embeddings rhs
  | sum_axis data _ => embeddings data
  | Flatten data => embeddings data
  | LinearRegressionOutput data label => embeddings data ++ embeddings label
  end.

(** ** RMSE on the element types of the arrays *)

Module Dtype.

Import SpecFloat.

(** The double nearest to an integer (ties to even, infinite when the
    integer is out of range). *)
Definition float_of_Z (z : Z) : PrimFloat.float :=
  FloatOps.SF2Prim (binary_normalize FloatOps.prec FloatOps.emax z 0 false).

(** The conversion of a Python [int] to [float] in [ret += x]: it raises
    [OverflowError] when the integer rounds beyond the largest double. *)
Definition py_float_of_int (z : Z) : result PrimFloat.float :=
  if (Z.abs z <? 2 ^ 1024 - 2 ^ 970)%Z then Ok (float_of_Z z)
  else Raise OverflowError.

(** Arithmetic of [numpy.int64]: results wrap to 64 bits, two's
    complement. *)
Definition wrap64 (z : Z) : Z := ((z + 2 ^ 63) mod 2 ^ 64 - 2 ^ 63)%Z.

(** [ret / n] where [n] has counted the rounds of the loop: the values
    [0.0], [1.0], [2.0], ... of [n] are kept as the integers they are
    (exact in double precision below [2^53] rounds). *)
Definition div_count (ret : PrimFloat.float) (n : Z) : result PrimFloat.float :=
  if (n =? 0)%Z then Raise ZeroDivisionError
  else Ok (PrimFloat.div ret (float_of_Z n)).

(** [math.sqrt(x)] on a double: [ValueError] below zero, NaN for NaN. *)
Definition math_sqrt (x : PrimFloat.float) : result PrimFloat.float :=
  if PrimFloat.ltb x (float_of_Z 0) then Raise ValueError
  else Ok (PrimFloat.sqrt x).

Section Elements.

(** The elements of [label] and of [pred], and the double that
    [ret += (label[i] - pred[i]) * (label[i] - pred[i])] adds to [ret]:
    the product is computed in the arithmetic of the elements and then
    converted, which may raise. *)
Variables L P : Type.
Variable sq_err : L -> P -> result PrimFloat.float.

Definition loop_body (label : list L) (pred : list P) (i : Z)
  (st : PrimFloat.float * Z) : result (PrimFloat.float * Z) :=
  let '(ret, n) := st in
  li <- getitem label i ;;
  pi <- getitem pred i ;;
  t <- sq_err li pi ;;
  Ok (PrimFloat.add ret t, (n + 1)%Z).

Definition RMSE (label : list L) (pred : ndarray P) : result PrimFloat.float :=
  let ret := float_of_Z 0 in
  let n := 0%Z in
  let pred := flatten pred in
  '(ret, n) <- for_in (py_range (len label)) (loop_body label (elems pred)) (ret, n) ;;
  q <- div_count ret n ;;
  math_sqrt q.

(** The value that [test_RMSE] compares with [expect_ret]; [pred] is a
    list there. *)
Definition test_RMSE_value (label : list L) (pred : list P)
  : result PrimFloat.float :=
  let ret := float_of_Z 0 in
  let n := 0%Z in
  '(ret, n) <- for_in (py_range (len label)) (loop_body label pred) (ret, n) ;;
  q <- div_count ret n ;;
  math_sqrt q.

End Elements.

(** Elements of [numpy.int64] arrays (and labels that are integers of
    that range): the difference and the product wrap. *)
Definition sq_err_int64 (l p : Z) : result PrimFloat.float :=
  let d := wrap64 (l - p) in
  Ok (float_of_Z (wrap64 (d * d))).

(** Elements of [numpy.float64] arrays, and Python floats in lists. *)
Definition sq_err_float64 (l p : PrimFloat.float) : result PrimFloat.float :=
  let d := PrimFloat.sub l p in
  Ok (PrimFloat.mul d d).

(** Python integers in lists: the product is exact, its conversion to
    [float] may raise. *)
Definition sq_err_pyint (l p : Z) : result PrimFloat.float :=
  py_float_of_int ((l - p) * (l - p)).


(** The squared difference fits 64 bits. *)
Definition no_wrap (l p : Z) : Prop :=
  (- 2 ^ 63 <= l - p < 2 ^ 63)%Z /\ ((l - p) * (l - p) < 2 ^ 63)%Z.

End Dtype.

(** ** An example file *)

Definition example_file : list string :=
  [ tsv ["1"; "10"; "3"; "881250949"];
    "not a rating line";
    tsv ["2"; "20"; "5"; "891717742"];
    tsv ["3"; "30"; "4"; "878887116"] ]%string.

(** The same ratings with other timestamps and other stray lines. *)
Definition example_file_restamped : list string :=
  [ tsv ["1"; "10"; "3"; "0"];
    tsv ["2"; "20"; "5"; "later"];
    "";
    tsv ["3"; "30"; "4"; "12"];
    tsv ["9"; "9"] ]%string.

(** A stray line between two ratings. *)
Definition first_rating : list string := [ tsv ["1"; "10"; "3"; "0"] ]%string.
Definition stray_line : string := "stray"%string.
Definition last_rating : list string := [ tsv ["2"; "20"; "5"; "0"] ]%string.

(** A file with negative ids, and a file whose user id is not a number. *)
Definition negative_ids_file : list string :=
  [ tsv ["-5"; "-3"; "1"; "0"] ]%string.

Definition unreadable_id_file : list string :=
  [ tsv ["x"; "3"; "1"; "0"] ]%string.

Definition example_iter : DataIter R :=
  {| batch_size := 2;
     data := [(1, 10, 3%R); (2, 20, 5%R); (3, 30, 4%R)]%Z;
     provide_data := [("user", [2]); ("item", [2])]%string%Z;
     provide_label := [("score", [2])]%string%Z |}.

(** Conversions that do not round, to run the iterator on the examples. *)
Definition exact_of_int : Z -> R := IZR.
Definition exact_of_float : R -> R := fun x => x.

(** The records of [example_iter] under another batch size. *)
Definition example_iter_of (b : Z) : DataIter R :=
  {| batch_size := b;
     data := data example_iter;
     provide_data := [("user", [b]); ("item", [b])]%string;
     provide_label := [("score", [b])]%string |}.

(** A part of [example_file], with a line of its own that is no rating. *)
Definition example_part : list string :=
  [ tsv ["2"; "20"; "5"; "891717742"]; "user item rating time" ]%string.

Definition example_part_iter (b : Z) : DataIter R :=
  {| batch_size := b;
     data := [(2, 20, 5%R)]%Z;
     provide_data := [("user", [b]); ("item", [b])]%string;
     provide_label := [("score", [b])]%string |}.

(** A file whose ratings are not numbers: [max_id] reads it all the same. *)
Definition example_file_unrated : list string :=
  [ tsv ["1"; "10"; "good"; "x"];
    tsv ["2"; "20"; "bad"; "y"];
    tsv ["3"; "30"; "so-so"; "z"] ]%string.

(** Blanks: a space, and a carriage return with a line feed. *)
Definition blank : string := " "%string.
Definition crlf : string :=
  String (ascii_of_nat 13) (String (ascii_of_nat 10) EmptyString).

(** * Properties *)

Unset Implicit Arguments.

(** ** Loops, ranges and indexing *)

Lemma for_in_app {I S : Type} (xs ys : list I) (body : I -> S -> result S) (s : S) :
  for_in (xs ++ ys) body s = (s' <- for_in xs body s ;; for_in ys body s').
Proof.
  revert s; induction xs as [|x xs IH]; intros s; simpl.
  - reflexivity.
  - destruct (body x s) as [s'|e]; simpl; [apply IH | reflexivity].
Qed.

Lemma py_range_of_nat (n : nat) :
  py_range (Z.of_nat n) = map Z.of_nat (seq 0 n).
Proof. unfold py_range; rewrite Nat2Z.id; reflexivity. Qed.

Lemma py_range_succ (n : nat) :
  py_range (Z.of_nat (S n)) = py_range (Z.of_nat n) ++ [Z.of_nat n].
Proof.
  rewrite !py_range_of_nat, seq_S, map_app; reflexivity.
Qed.

Lemma py_range_nonpos (n : Z) : (n <= 0)%Z -> py_range n = [].
Proof.
  intros H; unfold py_range.
  replace (Z.to_nat n) with 0%nat by lia; reflexivity.
Qed.

Lemma getitem_of_nat {A : Type} (l : list A) (i : nat) :
  getitem l (Z.of_nat i) = of_option IndexError (nth_error l i).
Proof.
  unfold getitem.
  assert (E : (Z.of_nat i <? 0)%Z = false) by (apply Z.ltb_ge; lia).
  cbv zeta; rewrite E, E, Nat2Z.id; reflexivity.
Qed.

Lemma getitem_nth {A : Type} (l : list A) (i : nat) (d : A) :
  (i < length l)%nat -> getitem l (Z.of_nat i) = Ok (nth i l d).
Proof.
  intros H; rewrite getitem_of_nat.
  rewrite (nth_error_nth' l d H); reflexivity.
Qed.

(** ** The RMSE metric *)

Section MetricFacts.

Import Metric.
Open Scope R_scope.

Lemma Rsum_below_nonneg (n : nat) (f : nat -> R) :
  (forall i, 0 <= f i) -> 0 <= Rsum_below n f.
Proof.
  intros Hf; induction n as [|n IH]; simpl.
  - lra.
  - specialize (Hf n); lra.
Qed.

Lemma Rsum_below_ext (n : nat) (f g : nat -> R) :
  (forall i, f i = g i) -> Rsum_below n f = Rsum_below n g.
Proof.
  intros H; induction n as [|n IH]; simpl.
  - reflexivity.
  - rewrite IH, H; reflexivity.
Qed.

Lemma sq_diff_nonneg (label pred : list R) (i : nat) : 0 <= sq_diff label pred i.
Proof. unfold sq_diff; apply Rle_0_sqr. Qed.

(** The loop invariant of [RMSE]: after [m] rounds [ret] is the sum of the
    first [m] squared differences and [n] is [m]. *)
Lemma RMSE_loop (label : list R) (pred : ndarray R) (m : nat) :
  (m <= length label)%nat -> (m <= length (elems pred))%nat ->
  for_in (py_range (Z.of_nat m)) (RMSE_body label (flatten pred)) (0, 0)
  = Ok (Rsum_below m (sq_diff label (elems pred)), INR m).
Proof.
  induction m as [|m IH]; intros Hl Hp.
  - reflexivity.
  - rewrite py_range_succ, for_in_app, IH by lia.
    cbn [bind for_in RMSE_body].
    unfold nd_getitem; cbn [flatten nd_array elems].
    rewrite (getitem_nth label m 0) by lia.
    rewrite (getitem_nth (elems pred) m 0) by lia.
    cbn [bind]. rewrite S_INR. reflexivity.
Qed.

(** The value of [RMSE] on inputs of equal, non-zero length. *)
Lemma RMSE_value (label : list R) (pred : ndarray R) :
  label <> [] -> length label = length (elems pred) ->
  RMSE label pred
  = Ok (sqrt (Rsum_below (length label) (sq_diff label (elems pred))
              / INR (length label))).
Proof.
  intros Hne Hlen. unfold RMSE, len.
  rewrite RMSE_loop by lia. cbn [bind].
  assert (Hn : 0 < INR (length label)).
  { apply lt_0_INR. destruct label; [congruence | simpl; lia]. }
  unfold py_div. destruct (Req_dec_T (INR (length label)) 0) as [E|_]; [lra|].
  cbn [bind]. unfold math_sqrt.
  destruct (Rlt_dec _ 0) as [Hneg|_]; [|reflexivity].
  exfalso.
  pose proof (Rsum_below_nonneg (length label) (sq_diff label (elems pred))
                (sq_diff_nonneg label (elems pred))) as Hs.
  assert (0 <= Rsum_below (length label) (sq_diff label (elems pred))
               / INR (length label)).
  { apply Rmult_le_pos; [exact Hs|]. left; apply Rinv_0_lt_compat; exact Hn. }
  lra.
Qed.

(** On an empty [label] the loop does not run and [ret / n] is [0.0 / 0.0]. *)
Lemma RMSE_empty (pred : ndarray R) : RMSE [] pred = Raise ZeroDivisionError.
Proof.
  unfold RMSE; cbn. unfold py_div.
  destruct (Req_dec_T 0 0) as [_|H]; [reflexivity | contradiction].
Qed.

(** [test_RMSE] runs the loop of [RMSE] on a one-dimensional array. *)
Lemma test_RMSE_value_eq (label pred : list R) :
  test_RMSE_value label pred = RMSE label (nd_array pred).
Proof. reflexivity. Qed.

Lemma sum_identical (s : list R) (n : nat) : Rsum_below n (sq_diff s s) = 0.
Proof.
  induction n as [|n IH]; simpl.
  - reflexivity.
  - rewrite IH. unfold sq_diff, Rsqr. ring.
Qed.

Lemma sqrt_25 : sqrt 25 = 5.
Proof. replace 25 with (5 * 5) by lra. apply sqrt_square; lra. Qed.

Lemma RMSE_case1 :
  RMSE [1; 2; 3; 4; 5] (nd_array [2; 1; 3; 5; 6]) = Ok (sqrt 0.8).
Proof.
  rewrite RMSE_value; [|discriminate|reflexivity].
  do 2 f_equal. unfold sq_diff, Rsqr.
  cbn [Rsum_below nth length elems nd_array INR].
  replace (1 + 1 + 1 + 1 + 1) with 5 by lra.
  match goal with |- ?a / 5 = _ => replace a with 4 by ring end. lra.
Qed.

Lemma RMSE_case3 :
  RMSE [1; 5; 10; 15; 20] (nd_array [6; 10; 5; 20; 25]) = Ok 5.
Proof.
  rewrite RMSE_value; [|discriminate|reflexivity].
  f_equal. transitivity (sqrt 25); [|exact sqrt_25].
  f_equal. unfold sq_diff, Rsqr.
  cbn [Rsum_below nth length elems nd_array INR].
  replace (1 + 1 + 1 + 1 + 1) with 5 by lra.
  match goal with |- ?a / 5 = _ => replace a with 125 by ring end. lra.
Qed.

Lemma RMSE_identical (s : list R) : s <> [] -> RMSE s (nd_array s) = Ok 0.
Proof.
  intros Hs. rewrite RMSE_value; [|exact Hs|reflexivity].
  cbn [elems nd_array]. rewrite sum_identical.
  unfold Rdiv; rewrite Rmult_0_l, sqrt_0. reflexivity.
Qed.

(** The assertion of [test_RMSE] holds exactly when the inline value is
    the expected one. *)
Lemma test_RMSE_passes (label pred : list R) (expect_ret : R) :
  test_RMSE label pred expect_ret = Ok tt <->
  test_RMSE_value label pred = Ok expect_ret.
Proof.
  unfold test_RMSE.
  destruct (test_RMSE_value label pred) as [v|e]; cbn [bind].
  - destruct (Req_dec_T v expect_ret) as [E|E]; split; intros H.
    + rewrite E; reflexivity.
    + reflexivity.
    + discriminate.
    + injection H as H; contradiction.
  - split; discriminate.
Qed.

(** The three test cases of the notebook pass. *)
Lemma run_tests_pass : run_tests = Ok tt.
Proof.
  unfold run_tests, expect_res, math_sqrt.
  destruct (Rlt_dec 0.8 0) as [H|_]; [lra|].
  destruct (Rlt_dec 0 0) as [H|_]; [lra|].
  destruct (Rlt_dec 25 0) as [H|_]; [lra|].
  cbn [bind test_cases combine for_in].
  assert (H1 : test_RMSE [1; 2; 3; 4; 5] [2; 1; 3; 5; 6] (sqrt 0.8) = Ok tt).
  { apply test_RMSE_passes. rewrite test_RMSE_value_eq. exact RMSE_case1. }
  assert (H2 : test_RMSE [10; 10; 9; 9; 8] [10; 10; 9; 9; 8] (sqrt 0) = Ok tt).
  { apply test_RMSE_passes. rewrite test_RMSE_value_eq, sqrt_0.
    apply RMSE_identical; discriminate. }
  assert (H3 : test_RMSE [1; 5; 10; 15; 20] [6; 10; 5; 20; 25] (sqrt 25) = Ok tt).
  { apply test_RMSE_passes. rewrite test_RMSE_value_eq, sqrt_25.
    exact RMSE_case3. }
  rewrite H1; cbn [bind]. rewrite H2; cbn [bind]. rewrite H3; reflexivity.
Qed.

(** C3: [RMSE([1,2,3,4,5], [2,1,3,5,6])] is [sqrt(0.8)]; [RMSE(s, s)] is
    [0] for every non-empty [s]; [RMSE([1,5,10,15,20], [6,10,5,20,25])]
    is [5]. *)
Theorem RMSE_test_values :
  RMSE [1; 2; 3; 4; 5] (nd_array [2; 1; 3; 5; 6]) = Ok (sqrt 0.8)
  /\ (forall s : list R, s <> [] -> RMSE s (nd_array s) = Ok 0)
  /\ RMSE [1; 5; 10; 15; 20] (nd_array [6; 10; 5; 20; 25]) = Ok 5.
Proof.
  split; [exact RMSE_case1 | split; [exact RMSE_identical | exact RMSE_case3]].
Qed.

Lemma RMSE_test_values_witness :
  RMSE [10; 10; 9; 9; 8] (nd_array [10; 10; 9; 9; 8]) = Ok 0.
Proof.
  apply (proj1 (proj2 RMSE_test_values) [10; 10; 9; 9; 8]).
  discriminate.
Defined.

End MetricFacts.

(** ** Item access within bounds *)

Lemma getitem_in_range {A : Type} (l : list A) (j : Z) :
  (0 <= j < len l)%Z ->
  exists a, nth_error l (Z.to_nat j) = Some a /\ getitem l j = Ok a.
Proof.
  intros Hj. unfold len in Hj.
  destruct (nth_error l (Z.to_nat j)) as [a|] eqn:E.
  - exists a. split; [reflexivity|].
    rewrite <- (Z2Nat.id j) by lia. rewrite getitem_of_nat, E. reflexivity.
  - apply nth_error_None in E. lia.
Qed.

Lemma setitem_in_range {A : Type} (l : list A) (j : Z) (v : A) :
  (0 <= j < len l)%Z ->
  setitem l j v
  = Ok (firstn (Z.to_nat j) l ++ v :: skipn (S (Z.to_nat j)) l).
Proof.
  intros Hj. unfold setitem.
  assert (E1 : (j <? 0)%Z = false) by (apply Z.ltb_ge; lia).
  assert (E2 : (len l <=? j)%Z = false) by (apply Z.leb_gt; lia).
  cbv zeta. rewrite E1, E1, E2. reflexivity.
Qed.

(** Overwriting position [i], which held [x], by [y]: the old list with
    [y] added holds the same elements as the new list with [x] added. *)
Lemma overwrite_Permutation {A : Type} (l : list A) (i : nat) (x y : A) :
  nth_error l i = Some x ->
  Permutation (y :: l) (x :: (firstn i l ++ y :: skipn (S i) l)).
Proof.
  intros H.
  destruct (nth_error_split l i H) as (l1 & l2 & -> & Hlen).
  subst i.
  rewrite firstn_app, firstn_all, Nat.sub_diag, firstn_O, app_nil_r.
  replace (skipn (S (length l1)) (l1 ++ x :: l2)) with l2.
  - transitivity (y :: x :: l1 ++ l2).
    + apply perm_skip. symmetry. apply Permutation_middle.
    + rewrite perm_swap. apply perm_skip. apply Permutation_middle.
  - rewrite skipn_app.
    replace (S (length l1) - length l1)%nat with 1%nat by lia.
    rewrite skipn_all2 by lia. reflexivity.
Qed.

Lemma overwrite_length {A : Type} (l : list A) (i : nat) (y : A) :
  (i < length l)%nat -> length (firstn i l ++ y :: skipn (S i) l) = length l.
Proof.
  intros H. rewrite length_app, length_firstn. cbn [length].
  rewrite length_skipn. lia.
Qed.

Lemma overwrite_nth_same {A : Type} (l : list A) (i : nat) (y : A) :
  (i < length l)%nat -> nth_error (firstn i l ++ y :: skipn (S i) l) i = Some y.
Proof.
  intros H. rewrite nth_error_app2; rewrite length_firstn; [|lia].
  replace (i - Nat.min i (length l))%nat with 0%nat by lia. reflexivity.
Qed.

Lemma overwrite_nth_other {A : Type} (l : list A) (i j : nat) (y : A) :
  (i < length l)%nat -> i <> j ->
  nth_error (firstn i l ++ y :: skipn (S i) l) j = nth_error l j.
Proof.
  intros H Hij.
  assert (Hf : length (firstn i l) = i) by (rewrite length_firstn; lia).
  transitivity (nth_error (firstn i l ++ skipn i l) j);
    [|rewrite firstn_skipn; reflexivity].
  destruct (Nat.lt_ge_cases j i) as [Hlt|Hge].
  - rewrite !nth_error_app1 by lia. reflexivity.
  - rewrite !nth_error_app2 by lia. rewrite Hf.
    rewrite (nth_error_skipn i l).
    replace (j - i)%nat with (S (j - S i)) at 1 by lia.
    cbn [nth_error].
    rewrite nth_error_skipn. f_equal; lia.
Qed.

(** ** [random.shuffle] and [reset] *)

(** One exchange of the shuffle returns a rearrangement. *)
Lemma shuffle_body_Permutation {A : Type} (choice : Z -> Z) (i : Z) (x : list A) :
  (0 <= i < len x)%Z ->
  exists x', shuffle_body choice i x = Ok x' /\ Permutation x x'.
Proof.
  intros Hi. unfold shuffle_body.
  set (j := (choice i mod (i + 1))%Z).
  assert (Hj : (0 <= j < i + 1)%Z) by (apply Z.mod_pos_bound; lia).
  destruct (getitem_in_range x j) as (xj & Ej & ->); [lia|].
  destruct (getitem_in_range x i) as (xi & Ei & ->); [lia|].
  cbn [bind]. rewrite setitem_in_range by lia. cbn [bind].
  set (x1 := firstn (Z.to_nat i) x ++ xj :: skipn (S (Z.to_nat i)) x).
  assert (Hlen1 : length x1 = length x).
  { apply overwrite_length. unfold len in Hi; lia. }
  rewrite setitem_in_range by (unfold len in *; lia).
  eexists; split; [reflexivity|].
  assert (E1 : nth_error x1 (Z.to_nat j) = Some xj).
  { destruct (Z.eq_dec i j) as [<-|Hne].
    - apply overwrite_nth_same. unfold len in Hi; lia.
    - unfold x1. rewrite overwrite_nth_other; [exact Ej | unfold len in Hi; lia | lia]. }
  pose proof (overwrite_Permutation x (Z.to_nat i) xi xj Ei) as P1.
  pose proof (overwrite_Permutation x1 (Z.to_nat j) xj xi E1) as P2.
  fold x1 in P1.
  apply (Permutation_cons_inv (a := xj)).
  rewrite P1. rewrite P2. reflexivity.
Qed.

(** A loop whose every round succeeds and keeps an invariant succeeds and
    keeps it. *)
Lemma for_in_invariant {I S : Type} (P : S -> Prop) (xs : list I)
  (body : I -> S -> result S) (s : S) :
  (forall x t, In x xs -> P t -> exists t', body x t = Ok t' /\ P t') ->
  P s -> exists s', for_in xs body s = Ok s' /\ P s'.
Proof.
  revert s; induction xs as [|x xs IH]; intros s Hbody Hs; cbn [for_in].
  - exists s; split; [reflexivity | exact Hs].
  - destruct (Hbody x s (or_introl eq_refl) Hs) as (t & -> & Ht). cbn [bind].
    apply IH; [|exact Ht].
    intros y u Hy Hu. apply Hbody; [right; exact Hy | exact Hu].
Qed.

Lemma in_py_range (n i : Z) : In i (py_range n) <-> (0 <= i < n)%Z.
Proof.
  unfold py_range. rewrite in_map_iff. split.
  - intros (k & <- & Hk). apply in_seq in Hk. lia.
  - intros H. exists (Z.to_nat i). split; [lia|]. apply in_seq. lia.
Qed.

Lemma in_py_xrange (a b i : Z) : In i (py_xrange a b) <-> (a <= i < b)%Z.
Proof.
  unfold py_xrange. rewrite in_map_iff. split.
  - intros (k & <- & Hk). apply in_py_range in Hk. lia.
  - intros H. exists (i - a)%Z. split; [lia|]. apply in_py_range. lia.
Qed.

Lemma random_shuffle_Permutation {A : Type} (choice : Z -> Z) (x : list A) :
  exists x', random_shuffle choice x = Ok x' /\ Permutation x x'.
Proof.
  unfold random_shuffle.
  apply (for_in_invariant (fun t => Permutation x t)); [|reflexivity].
  intros i t Hi Ht.
  apply in_rev, in_py_xrange in Hi.
  destruct (shuffle_body_Permutation choice i t) as (t' & E & P).
  - unfold len in *. rewrite <- (Permutation_length Ht). lia.
  - exists t'. split; [exact E|]. rewrite Ht. exact P.
Qed.

(** ** The data iterator *)

Lemma firstn_succ_nth {A : Type} (l : list A) (m : nat) (x : A) :
  nth_error l m = Some x -> firstn (S m) l = firstn m l ++ [x].
Proof.
  revert m; induction l as [|a l IH]; intros [|m] H; cbn in *; try discriminate.
  - injection H as ->; reflexivity.
  - f_equal. apply IH; exact H.
Qed.

Lemma firstn_plus {A : Type} (l : list A) (a c : nat) :
  firstn (a + c) l = firstn a l ++ firstn c (skipn a l).
Proof.
  revert l; induction a as [|a IH]; intros l; cbn.
  - reflexivity.
  - destruct l as [|x l]; cbn.
    + rewrite firstn_nil; reflexivity.
    + f_equal; apply IH.
Qed.

Section LoaderFacts.

Variable Score : Type.
Variable py_float : string -> option Score.
Variable F32 : Type.
Variable f32_of_int : Z -> F32.
Variable f32_of_float : Score -> F32.

(** C8: [reset] returns normally and rearranges [self.data]: the records
    after the call are a permutation of the records before it, and
    [batch_size], [provide_data] and [provide_label] are as before. *)
Theorem reset_permutes_data_only (choice : Z -> Z) (self : DataIter Score) :
  exists self' : DataIter Score,
    DataIter_reset choice self = Ok self'
    /\ Permutation (data self) (data self')
    /\ batch_size self' = batch_size self
    /\ provide_data self' = provide_data self
    /\ provide_label self' = provide_label self.
Proof.
  unfold DataIter_reset.
  destruct (random_shuffle_Permutation choice (data self)) as (d & -> & P).
  cbn [bind]. eexists; split; [reflexivity|].
  cbn. repeat split; try reflexivity. exact P.
Qed.

(** The inner loop of [__iter__] after [m] rounds has collected the
    records at [k*b], ..., [k*b + m - 1]. *)
Lemma iter_inner_loop (self : DataIter Score) (k m : nat) :
  (0 <= batch_size self)%Z ->
  (k * Z.to_nat (batch_size self) + m <= length (data self))%nat ->
  let rs := firstn m (skipn (k * Z.to_nat (batch_size self)) (data self)) in
  for_in (py_range (Z.of_nat m)) (iter_inner_body self (Z.of_nat k)) ([], [], [])
  = Ok (map (@user Score) rs, map (@item Score) rs, map (@score Score) rs).
Proof.
  intros Hb. induction m as [|m IH]; intros Hm rs.
  - reflexivity.
  - rewrite py_range_succ, for_in_app, IH by lia.
    cbn [bind for_in iter_inner_body].
    set (b := Z.to_nat (batch_size self)) in *.
    replace (Z.of_nat k * batch_size self + Z.of_nat m)%Z
      with (Z.of_nat (k * b + m)) by (unfold b; lia).
    rewrite getitem_of_nat.
    destruct (nth_error (data self) (k * b + m)) as [[[u i] sc]|] eqn:E.
    2:{ apply nth_error_None in E. lia. }
    cbn [of_option bind].
    subst rs. rewrite <- nth_error_skipn in E.
    rewrite (firstn_succ_nth _ _ _ E), !map_app. reflexivity.
Qed.

(** The outer loop of [__iter__] after [m] rounds has yielded the batches
    of the first [m] slices. *)
Lemma iter_outer_loop (self : DataIter Score) (m : nat) :
  (0 <= batch_size self)%Z ->
  (m * Z.to_nat (batch_size self) <= length (data self))%nat ->
  for_in (py_range (Z.of_nat m)) (iter_body f32_of_int f32_of_float self) []
  = Ok (map (fun k => batch_of f32_of_int f32_of_float (slice self k)) (seq 0 m)).
Proof.
  intros Hb. induction m as [|m IH]; intros Hm.
  - reflexivity.
  - rewrite py_range_succ, for_in_app, IH by lia.
    cbn [bind for_in]. unfold iter_body.
    rewrite <- (Z2Nat.id (batch_size self)) at 1 by exact Hb.
    rewrite iter_inner_loop by (try exact Hb; lia).
    cbn [bind]. rewrite seq_S, map_app. reflexivity.
Qed.

Lemma full_batches_fit (n b : Z) :
  (0 <= n)%Z -> (0 < b)%Z ->
  (Z.to_nat (n / b) * Z.to_nat b <= Z.to_nat n)%nat.
Proof.
  intros Hn Hb.
  pose proof (Z.mul_div_le n b Hb) as H.
  pose proof (Z.div_pos n b Hn Hb) as Hq.
  rewrite <- Z2Nat.inj_mul by lia. apply Z2Nat.inj_le; lia.
Qed.

(** One full iteration with a positive batch size. *)
Lemma iter_value (self : DataIter Score) :
  (0 < batch_size self)%Z ->
  DataIter_iter f32_of_int f32_of_float self
  = Ok (map (fun k => batch_of f32_of_int f32_of_float (slice self k))
            (seq 0 (Z.to_nat (len (data self) / batch_size self)))).
Proof.
  intros Hb. unfold DataIter_iter, py_floordiv.
  destruct (Z.eqb_spec (batch_size self) 0) as [E|_]; [lia|].
  cbn [bind].
  assert (Hq : (0 <= len (data self) / batch_size self)%Z)
    by (apply Z.div_pos; unfold len; lia).
  rewrite <- (Z2Nat.id _ Hq) at 1.
  apply iter_outer_loop; [lia|].
  pose proof (full_batches_fit (len (data self)) (batch_size self)) as H.
  unfold len in *. rewrite Nat2Z.id in H. apply H; lia.
Qed.

(** With a negative batch size the quotient is not positive and nothing
    is yielded; with batch size [0] the division raises. *)
Lemma iter_nonpositive (self : DataIter Score) :
  (batch_size self < 0)%Z -> DataIter_iter f32_of_int f32_of_float self = Ok [].
Proof.
  intros Hb. unfold DataIter_iter, py_floordiv.
  destruct (Z.eqb_spec (batch_size self) 0) as [E|_]; [lia|].
  cbn [bind]. rewrite py_range_nonpos; [reflexivity|].
  pose proof (Z.mod_neg_bound (len (data self)) (batch_size self) Hb) as Hr.
  pose proof (Z.div_mod (len (data self)) (batch_size self)) as Hd.
  unfold len in *. nia.
Qed.

Lemma records_of_batch_of (rs : list (rating Score)) :
  records_of (batch_of f32_of_int f32_of_float rs)
  = map (stored f32_of_int f32_of_float) rs.
Proof.
  unfold records_of, batch_of, mx_nd_array; cbn [Batch_data Batch_label elems].
  induction rs as [|[[u i] sc] rs IH]; cbn.
  - reflexivity.
  - f_equal; exact IH.
Qed.

Lemma slice_length (self : DataIter Score) (k : nat) :
  ((k + 1) * Z.to_nat (batch_size self) <= length (data self))%nat ->
  length (slice self k) = Z.to_nat (batch_size self).
Proof.
  intros H. unfold slice. rewrite length_firstn, length_skipn. lia.
Qed.

Lemma slice_nth (self : DataIter Score) (k i : nat) :
  (i < Z.to_nat (batch_size self))%nat ->
  nth_error (slice self k) i
  = nth_error (data self) (k * Z.to_nat (batch_size self) + i).
Proof.
  intros H. unfold slice. rewrite nth_error_firstn.
  destruct (Nat.ltb_spec i (Z.to_nat (batch_size self))) as [_|H']; [|lia].
  apply nth_error_skipn.
Qed.

(** The batches of the first [m] slices hold the first [m * b] records. *)
Lemma records_of_slices (self : DataIter Score) (m : nat) :
  flat_map (@records_of F32)
           (map (fun k => batch_of f32_of_int f32_of_float (slice self k)) (seq 0 m))
  = map (stored f32_of_int f32_of_float)
        (firstn (m * Z.to_nat (batch_size self)) (data self)).
Proof.
  induction m as [|m IH].
  - reflexivity.
  - rewrite seq_S, map_app, flat_map_app, IH. cbn [map flat_map].
    rewrite (records_of_batch_of), app_nil_r, <- map_app.
    replace (S m * Z.to_nat (batch_size self))%nat
      with (m * Z.to_nat (batch_size self) + Z.to_nat (batch_size self))%nat
      by lia.
    rewrite firstn_plus. reflexivity.
Qed.

(** C2: with [n] loaded records and a batch size [b > 0], one full
    iteration yields [n / b] batches (floor division); the [k]-th batch is
    made of the [b] records at the indices [k*b], ..., [k*b + b - 1] of
    [self.data], in order, split into the users, items and scores arrays;
    all the batches together hold the first [n - n mod b] records, so the
    trailing [n mod b] records are not yielded. *)
Theorem iter_yields_full_batches (self : DataIter Score) :
  (0 < batch_size self)%Z ->
  let n := len (data self) in
  let b := batch_size self in
  exists batches : list (Batch F32),
    DataIter_iter f32_of_int f32_of_float self = Ok batches
    /\ len batches = (n / b)%Z
    /\ (forall k : nat, (k < length batches)%nat ->
          nth_error batches k = Some (batch_of f32_of_int f32_of_float (slice self k))
          /\ len (slice self k) = b
          /\ forall i : nat, (i < Z.to_nat b)%nat ->
               nth_error (slice self k) i
               = nth_error (data self) (k * Z.to_nat b + i))
    /\ flat_map (@records_of F32) batches
       = map (stored f32_of_int f32_of_float)
             (firstn (Z.to_nat (n - n mod b)) (data self)).
Proof.
  intros Hb n b.
  assert (Hn : (0 <= n)%Z) by (unfold n, len; lia).
  pose proof (Z.div_pos n b Hn Hb) as Hq.
  pose proof (full_batches_fit n b Hn Hb) as Hfit.
  unfold n at 2, len in Hfit. rewrite Nat2Z.id in Hfit.
  eexists. split; [apply iter_value; exact Hb|]. fold n b.
  split; [|split].
  - unfold len. rewrite length_map, length_seq. lia.
  - intros k Hk. rewrite length_map, length_seq in Hk.
    split; [|split].
    + rewrite nth_error_map, nth_error_seq.
      destruct (Nat.ltb_spec k (Z.to_nat (n / b))) as [_|H']; [|lia].
      reflexivity.
    + unfold len. rewrite slice_length; [fold b; lia|]. fold b. nia.
    + intros i Hi. apply slice_nth. exact Hi.
  - rewrite records_of_slices. fold b. do 2 f_equal.
    pose proof (Z.div_mod n b ltac:(lia)) as Hd.
    replace (n - n mod b)%Z with (n / b * b)%Z by lia.
    rewrite Z2Nat.inj_mul by lia. reflexivity.
Qed.

Lemma constructed_declares (self : DataIter Score) :
  constructed py_float self ->
  provide_data self
  = [("user", [batch_size self]); ("item", [batch_size self])]%string
  /\ provide_label self = [("score", [batch_size self])]%string.
Proof.
  induction 1 as [lines b self H | choice self self' _ IH H].
  - unfold DataIter_init in H.
    destruct (for_in lines (init_body py_float) []) as [d|e]; [|discriminate].
    injection H as <-. split; reflexivity.
  - unfold DataIter_reset in H.
    destruct (random_shuffle choice (data self)) as [d|e]; [|discriminate].
    injection H as <-. exact IH.
Qed.

Lemma batch_of_arrays (rs : list (rating Score)) :
  arrays_of_size (len rs) (batch_of f32_of_int f32_of_float rs).
Proof.
  unfold arrays_of_size, batch_of; cbn [Batch_data Batch_label length].
  split; [reflexivity|]. split; [reflexivity|].
  split; intros a H.
  - destruct H as [<-|[<-|[]]]; unfold mx_nd_array, len; cbn [elems shape];
      rewrite !length_map; split; reflexivity.
  - destruct H as [<-|[]]; unfold mx_nd_array, len; cbn [elems shape];
      rewrite !length_map; split; reflexivity.
Qed.

Lemma batch_of_provides (rs : list (rating Score)) :
  Batch_provide_data (batch_of f32_of_int f32_of_float rs)
  = [("user", [len rs]); ("item", [len rs])]%string
  /\ Batch_provide_label (batch_of f32_of_int f32_of_float rs) = [("score", [len rs])]%string.
Proof.
  unfold Batch_provide_data, Batch_provide_label, batch_of, mx_nd_array, len.
  cbn [Batch_data Batch_label Batch_data_names Batch_label_names combine map
       shape].
  rewrite !length_map. split; reflexivity.
Qed.

(** C6: for an iterator made by [DataIter(...)] and reset any number of
    times, every batch of an iteration holds two data arrays and one label
    array of exactly [batch_size] elements each, its [provide_data] is
    [[('user', (batch_size,)), ('item', (batch_size,))]] and its
    [provide_label] is [[('score', (batch_size,))]], the shapes that the
    iterator declares; the only iteration that raises is the one with batch
    size [0], which raises before it yields a batch. *)
Theorem yielded_batches_have_declared_shapes (self : DataIter Score) :
  constructed py_float self ->
  let b := batch_size self in
  (exists batches : list (Batch F32),
      DataIter_iter f32_of_int f32_of_float self = Ok batches
      /\ Forall (fun B =>
                   arrays_of_size b B
                   /\ Batch_provide_data B
                      = [("user", [b]); ("item", [b])]%string
                   /\ Batch_provide_label B = [("score", [b])]%string
                   /\ Batch_provide_data B = provide_data self
                   /\ Batch_provide_label B = provide_label self)
                batches)
  \/ (b = 0%Z /\ DataIter_iter f32_of_int f32_of_float self = Raise ZeroDivisionError).
Proof.
  intros Hc b. destruct (constructed_declares self Hc) as [Hd Hl]. fold b in Hd, Hl.
  destruct (Z.lt_trichotomy b 0) as [Hneg|[Hz|Hpos]].
  - left. exists []. split; [apply iter_nonpositive; exact Hneg | constructor].
  - right. split; [exact Hz|].
    unfold DataIter_iter, py_floordiv. fold b. rewrite Hz. reflexivity.
  - left. eexists. split; [apply iter_value; exact Hpos|].
    apply Forall_forall. intros B HB.
    apply in_map_iff in HB. destruct HB as (k & <- & Hk).
    apply in_seq in Hk.
    assert (Hn : (0 <= len (data self))%Z) by (unfold len; lia).
    pose proof (full_batches_fit (len (data self)) b Hn Hpos) as Hfit.
    unfold len in Hfit at 2. rewrite Nat2Z.id in Hfit.
    fold b in Hk.
    assert (Hlen : len (slice self k) = b).
    { unfold len. rewrite slice_length; fold b; [lia|].
      apply Nat.le_trans with (Z.to_nat (len (data self) / b) * Z.to_nat b)%nat;
        [|exact Hfit].
      apply Nat.mul_le_mono_r. lia. }
    rewrite Hd, Hl.
    pose proof (batch_of_arrays (slice self k)) as Ha.
    destruct (batch_of_provides (slice self k)) as [Hpd Hpl].
    rewrite Hlen in Ha, Hpd, Hpl.
    split; [exact Ha|]. repeat split; assumption.
Qed.

(** *** Loading *)

Lemma len_4_inv (tks : list string) :
  (len tks =? 4)%Z = true -> exists a b c d : string, tks = [a; b; c; d].
Proof.
  intros H. apply Z.eqb_eq in H. unfold len in H.
  destruct tks as [|a [|b [|c [|d [|e r]]]]]; cbn [length] in H; try lia.
  exists a, b, c, d. reflexivity.
Qed.

Lemma init_body_skip (line : string) (data : list (rating Score)) :
  has4 line = false -> init_body py_float line data = Ok data.
Proof. unfold has4, init_body. intros ->. reflexivity. Qed.

Lemma init_body_four (line a b c d : string) (data : list (rating Score)) :
  tokens line = [a; b; c; d] ->
  init_body py_float line data
  = (user <- PyStr.py_int a ;;
     item <- PyStr.py_int b ;;
     score <- of_option ValueError (py_float c) ;;
     Ok (data ++ [(user, item, score)])).
Proof. unfold init_body. intros ->. reflexivity. Qed.

Lemma max_id_body_skip (line : string) (st : Z * Z) :
  has4 line = false -> max_id_body line st = Ok st.
Proof. unfold has4, max_id_body. destruct st as [mu mi]. intros ->. reflexivity. Qed.

Lemma max_id_body_four (line a b c d : string) (mu mi : Z) :
  tokens line = [a; b; c; d] ->
  max_id_body line (mu, mi)
  = (user <- PyStr.py_int a ;;
     item <- PyStr.py_int b ;;
     Ok (Z.max mu user, Z.max mi item)).
Proof. unfold max_id_body. intros ->. reflexivity. Qed.

(** Rounds that leave the state alone can be left out of a loop. *)
Lemma for_in_filter {I S : Type} (keep : I -> bool) (body : I -> S -> result S)
  (xs : list I) (s : S) :
  (forall x t, keep x = false -> body x t = Ok t) ->
  for_in (filter keep xs) body s = for_in xs body s.
Proof.
  intros Hskip. revert s; induction xs as [|x xs IH]; intros s; cbn [filter for_in].
  - reflexivity.
  - destruct (keep x) eqn:E; cbn [for_in].
    + destruct (body x s) as [s'|e]; cbn [bind]; [apply IH | reflexivity].
    + rewrite (Hskip x s E). cbn [bind]. apply IH.
Qed.

Lemma load_filter (lines : list string) (data0 : list (rating Score)) :
  for_in (filter has4 lines) (init_body py_float) data0
  = for_in lines (init_body py_float) data0.
Proof. apply for_in_filter. intros x t. apply init_body_skip. Qed.

Lemma max_id_filter (lines : list string) (st : Z * Z) :
  for_in (filter has4 lines) max_id_body st = for_in lines max_id_body st.
Proof. apply for_in_filter. intros x t. apply max_id_body_skip. Qed.

Lemma filter_has4_skip (l1 l2 : list string) (line : string) :
  has4 line = false -> filter has4 (l1 ++ line :: l2) = filter has4 (l1 ++ l2).
Proof.
  intros H. rewrite !filter_app. cbn [filter]. rewrite H. reflexivity.
Qed.

(** What the loop of [__init__] appends: one record for each four-token
    line, read from its first three tokens. *)
Lemma load_reads (lines : list string) (data0 data : list (rating Score)) :
  for_in lines (init_body py_float) data0 = Ok data ->
  exists rs : list (rating Score),
    data = data0 ++ rs /\ Forall2 (reads_as py_float) (filter has4 lines) rs.
Proof.
  revert data0; induction lines as [|line lines IH]; intros data0 H;
    cbn [for_in filter] in *.
  - injection H as <-. exists []. rewrite app_nil_r. split; constructor.
  - destruct (has4 line) eqn:E.
    + destruct (len_4_inv (tokens line) E) as (a & b & c & d & Ht).
      rewrite (init_body_four line a b c d data0 Ht) in H.
      unfold PyStr.py_int in H.
      destruct (PyStr.int_literal a) as [u|] eqn:Ea; [|discriminate].
      destruct (PyStr.int_literal b) as [i|] eqn:Eb; [|discriminate].
      destruct (py_float c) as [sc|] eqn:Ec; [|discriminate].
      cbn [of_option bind] in H.
      destruct (IH _ H) as (rs & -> & Hrs).
      exists ((u, i, sc) :: rs). rewrite <- app_assoc. split; [reflexivity|].
      constructor; [|exact Hrs].
      exists a, b, c, d. unfold PyStr.py_int. rewrite Ea, Eb.
      repeat split; assumption.
    + rewrite (init_body_skip line data0 E) in H. cbn [bind] in H.
      apply IH; exact H.
Qed.

Lemma load_total (lines : list string) (data0 rs : list (rating Score)) :
  Forall2 (reads_as py_float) (filter has4 lines) rs ->
  for_in lines (init_body py_float) data0 = Ok (data0 ++ rs).
Proof.
  revert data0 rs; induction lines as [|line lines IH]; intros data0 rs H;
    cbn [for_in filter] in *.
  - inversion H; subst. rewrite app_nil_r. reflexivity.
  - destruct (has4 line) eqn:E.
    + inversion H as [|x r l rs' Hr Hrest]; subst.
      destruct Hr as (a & b & c & d & Ht & Ha & Hb & Hc).
      rewrite (init_body_four line a b c d data0 Ht), Ha, Hb, Hc.
      cbn [of_option bind]. rewrite (IH _ _ Hrest), <- app_assoc.
      destruct r as [[u i] sc]; reflexivity.
    + rewrite (init_body_skip line data0 E). cbn [bind]. apply IH; exact H.
Qed.

Lemma init_data (lines : list string) (b : Z) (self : DataIter Score) :
  DataIter_init py_float lines b = Ok self ->
  for_in lines (init_body py_float) [] = Ok (data self) /\ batch_size self = b.
Proof.
  unfold DataIter_init. intros H.
  destruct (for_in lines (init_body py_float) []) as [d|e]; [|discriminate].
  injection H as <-. split; reflexivity.
Qed.

(** A load that returns has read its records off the four-token lines. *)
Lemma init_reads (lines : list string) (b : Z) (self : DataIter Score) :
  DataIter_init py_float lines b = Ok self ->
  Forall2 (reads_as py_float) (filter has4 lines) (data self).
Proof.
  intros H. destruct (init_data lines b self H) as [Hd _].
  destruct (load_reads lines [] (data self) Hd) as (rs & E & Hrs).
  cbn [app] in E. subst rs. exact Hrs.
Qed.

(** A file whose four-token lines all read as records loads. *)
Lemma init_total (lines : list string) (b : Z) (rs : list (rating Score)) :
  Forall2 (reads_as py_float) (filter has4 lines) rs ->
  DataIter_init py_float lines b
  = Ok {| batch_size := b;
          data := rs;
          provide_data := [("user", [b]); ("item", [b])]%string;
          provide_label := [("score", [b])]%string |}.
Proof.
  intros H. unfold DataIter_init. rewrite (load_total lines [] rs H).
  reflexivity.
Qed.

Lemma init_filter (lines : list string) (b : Z) :
  DataIter_init py_float lines b = DataIter_init py_float (filter has4 lines) b.
Proof. unfold DataIter_init. rewrite load_filter. reflexivity. Qed.

Lemma max_id_filtered (lines : list string) :
  max_id lines = max_id (filter has4 lines).
Proof. unfold max_id. rewrite max_id_filter. reflexivity. Qed.

(** On a four-token line the loop of [__init__] reads the first three
    tokens only. *)
Lemma init_body_agree3 (x y : string) (data0 : list (rating Score)) :
  has4 x = true -> has4 y = true -> agree3 x y ->
  init_body py_float x data0 = init_body py_float y data0.
Proof.
  intros Hx Hy Hxy.
  destruct (len_4_inv (tokens x) Hx) as (a & b & c & d & Ex).
  destruct (len_4_inv (tokens y) Hy) as (a' & b' & c' & d' & Ey).
  unfold agree3 in Hxy. rewrite Ex, Ey in Hxy. cbn [firstn] in Hxy.
  injection Hxy as <- <- <-.
  rewrite (init_body_four x a b c d data0 Ex), (init_body_four y a b c d' data0 Ey).
  reflexivity.
Qed.

Lemma load_agree3 (l1 l2 : list string) :
  Forall2 agree3 l1 l2 ->
  Forall (fun x => has4 x = true) l1 -> Forall (fun y => has4 y = true) l2 ->
  forall data0 : list (rating Score),
    for_in l1 (init_body py_float) data0 = for_in l2 (init_body py_float) data0.
Proof.
  induction 1 as [|x y l1 l2 Hxy _ IH]; intros H1 H2 data0; cbn [for_in].
  - reflexivity.
  - inversion H1; subst. inversion H2; subst.
    rewrite (init_body_agree3 x y data0) by assumption.
    destruct (init_body py_float y data0) as [d|e]; cbn [bind];
      [apply IH; assumption | reflexivity].
Qed.

Lemma Forall_filter_has4 (lines : list string) :
  Forall (fun x => has4 x = true) (filter has4 lines).
Proof. apply Forall_forall. intros x Hx. apply filter_In in Hx. apply Hx. Qed.

(** C9: a load that returns holds, for each four-token line in order, the
    record [(int(t0), int(t1), float(t2))] of its first three tokens; two
    files whose four-token lines agree, one by one, on their first three
    tokens load the same (whatever their fourth tokens and their other
    lines are). *)
Theorem loaded_data_ignores_fourth_column :
  (forall (lines : list string) (b : Z) (self : DataIter Score),
      DataIter_init py_float lines b = Ok self ->
      Forall2 (reads_as py_float) (filter has4 lines) (data self))
  /\ (forall (f1 f2 : list string) (b : Z),
        Forall2 agree3 (filter has4 f1) (filter has4 f2) ->
        DataIter_init py_float f1 b = DataIter_init py_float f2 b).
Proof.
  split.
  - exact init_reads.
  - intros f1 f2 b H.
    rewrite (init_filter f1), (init_filter f2). unfold DataIter_init.
    rewrite (load_agree3 _ _ H (Forall_filter_has4 f1) (Forall_filter_has4 f2)).
    reflexivity.
Qed.

(** *** [max_id] *)

Lemma ids_of_line_skip (line : string) : has4 line = false -> ids_of_line line = [].
Proof.
  unfold has4, ids_of_line. intros H.
  destruct (tokens line) as [|a [|b [|c [|d [|e r]]]]]; try reflexivity.
  discriminate H.
Qed.

(** The loop of [max_id], started from [(mu, mi)], on a file whose ids are
    all integer literals. *)
Lemma max_id_loop (lines : list string) (mu mi : Z) :
  ids_readable lines = true ->
  for_in lines max_id_body (mu, mi)
  = Ok (fold_left Z.max (map fst (ids_of lines)) mu,
        fold_left Z.max (map snd (ids_of lines)) mi).
Proof.
  revert mu mi; induction lines as [|line lines IH]; intros mu mi H.
  - reflexivity.
  - unfold ids_readable in H. cbn [forallb] in H.
    apply andb_true_iff in H. destruct H as [Hline Hrest].
    unfold ids_of. cbn [for_in flat_map]. fold (ids_of lines).
    destruct (has4 line) eqn:E.
    + destruct (len_4_inv (tokens line) E) as (a & b & c & d & Ht).
      rewrite (max_id_body_four line a b c d mu mi Ht).
      unfold ids_of_line, PyStr.py_int. rewrite Ht in *.
      destruct (PyStr.int_literal a) as [u|]; [|discriminate].
      destruct (PyStr.int_literal b) as [i|]; [|discriminate].
      cbn [of_option bind app map fst snd fold_left].
      apply IH. exact Hrest.
    + rewrite (max_id_body_skip line (mu, mi) E), (ids_of_line_skip line E).
      cbn [bind app]. apply IH. exact Hrest.
Qed.

(** The loop of [max_id] on a file that [DataIter] loads: it returns, and
    its maxima bound the ids of the loaded records. *)
Lemma max_id_loop_bounds (lines : list string) (rs : list (rating Score)) :
  Forall2 (reads_as py_float) (filter has4 lines) rs ->
  forall mu mi : Z,
  exists mu' mi' : Z,
    for_in lines max_id_body (mu, mi) = Ok (mu', mi')
    /\ (mu <= mu')%Z /\ (mi <= mi')%Z
    /\ Forall (fun r => (user r <= mu')%Z /\ (item r <= mi')%Z) rs.
Proof.
  revert rs; induction lines as [|line lines IH]; intros rs H mu mi;
    cbn [for_in filter] in *.
  - inversion H; subst. exists mu, mi.
    repeat split; [lia | lia | constructor].
  - destruct (has4 line) eqn:E.
    + inversion H as [|x r l rs' Hr Hrest]; subst.
      destruct Hr as (a & b & c & d & Ht & Ha & Hb & Hc).
      rewrite (max_id_body_four line a b c d mu mi Ht), Ha, Hb. cbn [bind].
      destruct (IH rs' Hrest (Z.max mu (user r)) (Z.max mi (item r)))
        as (mu' & mi' & Hloop & Hmu & Hmi & Hall).
      exists mu', mi'. repeat split; [exact Hloop | lia | lia |].
      constructor; [split; lia | exact Hall].
    + rewrite (max_id_body_skip line (mu, mi) E). cbn [bind].
      apply IH; exact H.
Qed.

(** What the loop of [max_id] returns bounds its start and the ids of
    every four-token line. *)
Lemma max_id_loop_covers (lines : list string) (m0 i0 m i : Z) :
  for_in lines max_id_body (m0, i0) = Ok (m, i) ->
  (m0 <= m)%Z /\ (i0 <= i)%Z
  /\ forall line a b c d u v,
       In line lines -> tokens line = [a; b; c; d] ->
       PyStr.py_int a = Ok u -> PyStr.py_int b = Ok v ->
       (u <= m)%Z /\ (v <= i)%Z.
Proof.
  revert m0 i0; induction lines as [|line lines IH]; intros m0 i0 H;
    cbn [for_in] in H.
  - injection H as <- <-. split; [lia|]. split; [lia|].
    intros line a b c d u v Hin. contradiction.
  - destruct (has4 line) eqn:E.
    + destruct (len_4_inv (tokens line) E) as (a & b & c & d & Ht).
      rewrite (max_id_body_four line a b c d m0 i0 Ht) in H.
      destruct (PyStr.py_int a) as [u|] eqn:Ea; [|discriminate].
      destruct (PyStr.py_int b) as [v|] eqn:Eb; [|discriminate].
      cbn [bind] in H. destruct (IH _ _ H) as (Hm & Hi & Hall).
      split; [lia|]. split; [lia|].
      intros l a' b' c' d' u' v' [<-|Hin] Ht' Ha' Hb'.
      * rewrite Ht in Ht'. injection Ht' as <- <- <- <-.
        rewrite Ea in Ha'. rewrite Eb in Hb'.
        injection Ha' as <-. injection Hb' as <-. lia.
      * apply (Hall l a' b' c' d' u' v' Hin Ht' Ha' Hb').
    + rewrite (max_id_body_skip line (m0, i0) E) in H. cbn [bind] in H.
      destruct (IH _ _ H) as (Hm & Hi & Hall).
      split; [lia|]. split; [lia|].
      intros l a' b' c' d' u' v' [<-|Hin] Ht' Ha' Hb'.
      * unfold has4 in E. rewrite Ht' in E. discriminate E.
      * apply (Hall l a' b' c' d' u' v' Hin Ht' Ha' Hb').
Qed.

(** C5: both loaders depend on the four-token lines only.  Loading a file
    is loading its four-token lines; a line with another number of tokens
    can be taken out of the file without changing what [DataIter] loads or
    what [max_id] returns, so it raises nothing and adds nothing; a file
    whose four-token lines all read as records loads, into exactly those
    records, one for each four-token line; and [max_id] takes the ids of
    every four-token line into its maxima: what it returns is above the
    ids of each of them, and is one more than the largest of [0] and
    those ids. *)
Theorem loaders_keep_four_token_lines :
  (forall (lines : list string) (b : Z),
      DataIter_init py_float lines b
      = DataIter_init py_float (filter has4 lines) b
      /\ max_id lines = max_id (filter has4 lines))
  /\ (forall (l1 l2 : list string) (line : string) (b : Z),
        has4 line = false ->
        DataIter_init py_float (l1 ++ line :: l2) b
        = DataIter_init py_float (l1 ++ l2) b
        /\ max_id (l1 ++ line :: l2) = max_id (l1 ++ l2))
  /\ (forall (lines : list string) (b : Z) (rs : list (rating Score)),
        Forall2 (reads_as py_float) (filter has4 lines) rs ->
        exists self : DataIter Score,
          DataIter_init py_float lines b = Ok self /\ data self = rs)
  /\ (forall (lines : list string) (b : Z) (self : DataIter Score),
        DataIter_init py_float lines b = Ok self ->
        length (data self) = length (filter has4 lines))
  /\ (forall (lines : list string) (mu mi : Z),
        max_id lines = Ok (mu, mi) ->
        forall (line a b c d : string) (u v : Z),
          In line lines -> tokens line = [a; b; c; d] ->
          PyStr.py_int a = Ok u -> PyStr.py_int b = Ok v ->
          (u < mu)%Z /\ (v < mi)%Z)
  /\ (forall lines : list string,
        ids_readable lines = true ->
        max_id lines
        = Ok (1 + maximum_with_zero (map fst (ids_of lines)),
              1 + maximum_with_zero (map snd (ids_of lines)))%Z).
Proof.
  split; [|split; [|split; [|split; [|split]]]].
  - intros lines b. split; [apply init_filter | apply max_id_filtered].
  - intros l1 l2 line b H. split.
    + rewrite init_filter, (init_filter (l1 ++ l2)), (filter_has4_skip l1 l2 line H).
      reflexivity.
    + rewrite max_id_filtered, (max_id_filtered (l1 ++ l2)),
        (filter_has4_skip l1 l2 line H).
      reflexivity.
  - intros lines b rs H. eexists. split; [apply init_total; exact H|].
    reflexivity.
  - intros lines b self H. symmetry.
    exact (Forall2_length (init_reads lines b self H)).
  - intros lines mu mi H line a b c d u v Hin Ht Ha Hb. unfold max_id in H.
    destruct (for_in lines max_id_body (0%Z, 0%Z)) as [[m i]|e] eqn:Hloop;
      [|discriminate].
    cbn [bind] in H. injection H as <- <-.
    destruct (max_id_loop_covers lines 0 0 m i Hloop) as (_ & _ & Hall).
    destruct (Hall line a b c d u v Hin Ht Ha Hb). split; lia.
  - intros lines H. unfold max_id. rewrite (max_id_loop lines 0 0 H).
    cbn [bind]. unfold maximum_with_zero. do 2 f_equal; apply Z.add_comm.
Qed.

(** C7, amended: on a file whose four-token lines begin with two integer
    literals, [max_id] returns one more than the largest of [0] and the
    user ids, and one more than the largest of [0] and the item ids, of
    the four-token lines; and whenever [DataIter] loads a file, [max_id]
    returns on it a pair that is strictly above the user id and the item
    id of every loaded record. *)
Theorem max_id_bounds_loaded_ids :
  (forall lines : list string,
      ids_readable lines = true ->
      max_id lines
      = Ok (1 + maximum_with_zero (map fst (ids_of lines)),
            1 + maximum_with_zero (map snd (ids_of lines)))%Z)
  /\ (forall (lines : list string) (b : Z) (self : DataIter Score),
        DataIter_init py_float lines b = Ok self ->
        exists mu mi : Z,
          max_id lines = Ok (mu, mi)
          /\ Forall (fun r => (user r < mu)%Z /\ (item r < mi)%Z) (data self)).
Proof.
  split.
  - intros lines H. unfold max_id. rewrite (max_id_loop lines 0 0 H).
    cbn [bind]. unfold maximum_with_zero. do 2 f_equal; apply Z.add_comm.
  - intros lines b self H.
    pose proof (init_reads lines b self H) as Hrs.
    destruct (max_id_loop_bounds lines (data self) Hrs 0 0)
      as (mu & mi & Hloop & _ & _ & Hall).
    exists (mu + 1)%Z, (mi + 1)%Z. unfold max_id. rewrite Hloop. cbn [bind].
    split; [reflexivity|].
    apply Forall_impl with (2 := Hall). intros r [Hu Hi]. split; lia.
Qed.

End LoaderFacts.

Lemma example_iter_loaded :
  DataIter_init float_of_int_literal example_file 2%Z = Ok example_iter.
Proof. reflexivity. Qed.

Lemma iter_yields_full_batches_witness :
  let n := len (data example_iter) in
  let b := batch_size example_iter in
  exists batches : list (Batch R),
    DataIter_iter exact_of_int exact_of_float example_iter = Ok batches
    /\ len batches = (n / b)%Z
    /\ (forall k : nat, (k < length batches)%nat ->
          nth_error batches k = Some (batch_of exact_of_int exact_of_float (slice example_iter k))
          /\ len (slice example_iter k) = b
          /\ forall i : nat, (i < Z.to_nat b)%nat ->
               nth_error (slice example_iter k) i
               = nth_error (data example_iter) (k * Z.to_nat b + i))
    /\ flat_map (@records_of R) batches
       = map (stored exact_of_int exact_of_float)
             (firstn (Z.to_nat (n - n mod b)) (data example_iter)).
Proof.
  apply (iter_yields_full_batches R R exact_of_int exact_of_float example_iter).
  reflexivity.
Defined.

Lemma yielded_batches_have_declared_shapes_witness :
  let b := batch_size example_iter in
  (exists batches : list (Batch R),
      DataIter_iter exact_of_int exact_of_float example_iter = Ok batches
      /\ Forall (fun B =>
                   arrays_of_size b B
                   /\ Batch_provide_data B
                      = [("user", [b]); ("item", [b])]%string
                   /\ Batch_provide_label B = [("score", [b])]%string
                   /\ Batch_provide_data B = provide_data example_iter
                   /\ Batch_provide_label B = provide_label example_iter)
                batches)
  \/ (b = 0%Z /\ DataIter_iter exact_of_int exact_of_float example_iter = Raise ZeroDivisionError).
Proof.
  apply (yielded_batches_have_declared_shapes R float_of_int_literal R exact_of_int
           exact_of_float example_iter).
  apply (constructed_init float_of_int_literal example_file 2%Z).
  reflexivity.
Defined.

Lemma loaders_keep_four_token_lines_witness :
  (DataIter_init float_of_int_literal
     (first_rating ++ stray_line :: last_rating) 1%Z
   = DataIter_init float_of_int_literal (first_rating ++ last_rating) 1%Z
   /\ max_id (first_rating ++ stray_line :: last_rating)
      = max_id (first_rating ++ last_rating))
  /\ (exists self : DataIter R,
         DataIter_init float_of_int_literal example_file 2%Z = Ok self
         /\ data self = data example_iter)
  /\ length (data example_iter) = length (filter has4 example_file)
  /\ ((3 < 4)%Z /\ (30 < 31)%Z)
  /\ max_id example_file
     = Ok (1 + maximum_with_zero (map fst (ids_of example_file)),
           1 + maximum_with_zero (map snd (ids_of example_file)))%Z.
Proof.
  pose proof (loaders_keep_four_token_lines R float_of_int_literal)
    as (_ & Hskip & Hload & Hcount & Hkept & Hmax).
  split; [|split; [|split; [|split]]].
  - apply Hskip. reflexivity.
  - apply Hload. simpl filter.
    repeat (constructor; [do 4 eexists; repeat split; reflexivity|]).
    constructor.
  - apply (Hcount example_file 2%Z example_iter). reflexivity.
  - apply (Hkept example_file 4%Z 31%Z eq_refl
             (tsv ["3"; "30"; "4"; "878887116"]%string)
             "3"%string "30"%string "4"%string "878887116"%string).
    + right; right; right; left; reflexivity.
    + reflexivity.
    + reflexivity.
    + reflexivity.
  - apply Hmax. reflexivity.
Defined.

Lemma loaded_data_ignores_fourth_column_witness :
  Forall2 (reads_as float_of_int_literal) (filter has4 example_file)
          (data example_iter)
  /\ DataIter_init float_of_int_literal example_file 2%Z
     = DataIter_init float_of_int_literal example_file_restamped 2%Z.
Proof.
  split.
  - apply (proj1 (loaded_data_ignores_fourth_column R float_of_int_literal)
             example_file 2%Z example_iter).
    reflexivity.
  - apply (proj2 (loaded_data_ignores_fourth_column R float_of_int_literal)).
    simpl. repeat constructor.
Defined.

Lemma max_id_bounds_loaded_ids_witness :
  max_id example_file
  = Ok (1 + maximum_with_zero (map fst (ids_of example_file)),
        1 + maximum_with_zero (map snd (ids_of example_file)))%Z
  /\ exists mu mi : Z,
       max_id example_file = Ok (mu, mi)
       /\ Forall (fun r => (user r < mu)%Z /\ (item r < mi)%Z)
                 (data example_iter).
Proof.
  split.
  - apply (proj1 (max_id_bounds_loaded_ids R float_of_int_literal)).
    reflexivity.
  - apply (proj2 (max_id_bounds_loaded_ids R float_of_int_literal)
             example_file 2%Z example_iter).
    reflexivity.
Defined.

(** C7 as stated fails on negative ids: the only line of
    [negative_ids_file] carries the user id [-5] and the item id [-3], so
    one more than the maxima is [(-4, -2)], and [max_id] returns [(1, 1)];
    and [max_id] does not return on [unreadable_id_file]. *)
Lemma max_id_not_one_more_than_maximum :
  ids_of negative_ids_file = [(-5, -3)%Z]
  /\ max_id negative_ids_file = Ok (1, 1)%Z
  /\ max_id negative_ids_file
     <> Ok (1 + maximum_or_zero (map fst (ids_of negative_ids_file)),
            1 + maximum_or_zero (map snd (ids_of negative_ids_file)))%Z
  /\ max_id unreadable_id_file = Raise ValueError.
Proof.
  repeat split; try reflexivity.
  vm_compute. discriminate.
Qed.

(** * Further properties *)

(** ** More on the RMSE metric *)

Section MetricMore.

Import Metric.
Open Scope R_scope.

Lemma Rsum_below_ext_lt (n : nat) (f g : nat -> R) :
  (forall i, (i < n)%nat -> f i = g i) -> Rsum_below n f = Rsum_below n g.
Proof.
  induction n as [|n IH]; intros H; simpl.
  - reflexivity.
  - rewrite IH, (H n) by (intros; try apply H; lia). reflexivity.
Qed.

(** The value of [RMSE] when [pred] has at least as many elements as
    [label]. *)
Lemma RMSE_value_prefix (label : list R) (pred : ndarray R) :
  label <> [] -> (length label <= length (elems pred))%nat ->
  RMSE label pred
  = Ok (sqrt (Rsum_below (length label) (sq_diff label (elems pred))
              / INR (length label))).
Proof.
  intros Hne Hlen. unfold RMSE, len.
  rewrite RMSE_loop by lia. cbn [bind].
  assert (Hn : 0 < INR (length label)).
  { apply lt_0_INR. destruct label; [congruence | simpl; lia]. }
  unfold py_div. destruct (Req_dec_T (INR (length label)) 0) as [E|_]; [lra|].
  cbn [bind]. unfold math_sqrt.
  destruct (Rlt_dec _ 0) as [Hneg|_]; [|reflexivity].
  exfalso.
  pose proof (Rsum_below_nonneg (length label) (sq_diff label (elems pred))
                (sq_diff_nonneg label (elems pred))) as Hs.
  apply (Rlt_irrefl 0). eapply Rle_lt_trans; [|exact Hneg].
  apply Rmult_le_pos; [exact Hs|]. left; apply Rinv_0_lt_compat; exact Hn.
Qed.

(** X1: when [pred] holds fewer elements than [label], [RMSE] raises
    [IndexError] (at the first index that [pred] lacks). *)
Theorem RMSE_short_pred_raises (label : list R) (pred : ndarray R) :
  (length (elems pred) < length label)%nat ->
  RMSE label pred = Raise IndexError.
Proof.
  intros H. unfold RMSE.
  set (p := length (elems pred)).
  assert (Hsplit : py_range (len label)
                   = py_range (Z.of_nat p) ++ Z.of_nat p
                       :: map Z.of_nat (seq (S p) (length label - S p))).
  { unfold len. rewrite !py_range_of_nat.
    replace (length label) with (p + S (length label - S p))%nat at 1 by lia.
    rewrite seq_app, map_app. reflexivity. }
  rewrite Hsplit, for_in_app, RMSE_loop by lia.
  cbn [bind for_in RMSE_body].
  rewrite (getitem_nth label p 0) by lia. cbn [bind].
  unfold nd_getitem; cbn [flatten nd_array elems].
  rewrite getitem_of_nat.
  assert (E : nth_error (elems pred) p = None) by (apply nth_error_None; lia).
  rewrite E. reflexivity.
Qed.

Lemma RMSE_short_pred_raises_witness :
  RMSE [1; 2; 3] (nd_array [1; 2]) = Raise IndexError.
Proof.
  apply (RMSE_short_pred_raises [1; 2; 3] (nd_array [1; 2])).
  simpl. lia.
Defined.

(** X2: when [pred] holds more elements than [label], the elements past
    [len(label)] are never read: the result is that of [pred] cut to the
    length of [label]. *)
Theorem RMSE_ignores_extra_pred (label : list R) (pred : ndarray R) :
  (length label <= length (elems pred))%nat ->
  RMSE label pred
  = RMSE label (nd_array (firstn (length label) (elems pred))).
Proof.
  intros H. destruct label as [|x label].
  - rewrite !RMSE_empty. reflexivity.
  - rewrite !RMSE_value_prefix;
      try discriminate; try exact H;
      [|cbn [elems nd_array]; rewrite length_firstn; lia].
    do 3 f_equal. cbn [elems nd_array].
    apply Rsum_below_ext_lt. intros i Hi. unfold sq_diff.
    rewrite nth_firstn.
    destruct (Nat.ltb_spec i (length (x :: label))) as [_|H']; [reflexivity|lia].
Qed.

Lemma RMSE_ignores_extra_pred_witness :
  RMSE [1; 2] (nd_array [1; 4; 9])
  = RMSE [1; 2] (nd_array (firstn (length [1; 2]) (elems (nd_array [1; 4; 9])))).
Proof.
  apply (RMSE_ignores_extra_pred [1; 2] (nd_array [1; 4; 9])).
  simpl. lia.
Defined.

(** X4: [RMSE] is symmetric: exchanging the labels and the predictions of
    two sequences of equal length gives the same result. *)
Theorem RMSE_symmetric (a b : list R) :
  length a = length b ->
  RMSE a (nd_array b) = RMSE b (nd_array a).
Proof.
  intros Hlen. destruct a as [|x a].
  - destruct b; [reflexivity | discriminate].
  - destruct b as [|y b]; [discriminate|].
    rewrite !RMSE_value; try discriminate; try (cbn [elems nd_array]; congruence).
    cbn [elems nd_array]. rewrite <- Hlen. do 3 f_equal.
    apply Rsum_below_ext. intros i. unfold sq_diff, Rsqr. ring.
Qed.

Lemma RMSE_symmetric_witness :
  RMSE [1; 2] (nd_array [3; 5]) = RMSE [3; 5] (nd_array [1; 2]).
Proof.
  apply (RMSE_symmetric [1; 2] [3; 5]). reflexivity.
Defined.

End MetricMore.

(** ** More on the lines of a file *)

Lemma for_in_map {I J S : Type} (f : I -> J) (xs : list I)
  (body : J -> S -> result S) (s : S) :
  for_in (map f xs) body s = for_in xs (fun x => body (f x)) s.
Proof.
  revert s; induction xs as [|x xs IH]; intros s; cbn [map for_in].
  - reflexivity.
  - destruct (body (f x) s) as [s'|e]; cbn [bind]; [apply IH | reflexivity].
Qed.

Lemma for_in_same {I S : Type} (xs : list I) (f g : I -> S -> result S) (s : S) :
  (forall x t, f x t = g x t) -> for_in xs f s = for_in xs g s.
Proof.
  intros H. revert s; induction xs as [|x xs IH]; intros s; cbn [for_in].
  - reflexivity.
  - rewrite H. destruct (g x s) as [s'|e]; cbn [bind]; [apply IH | reflexivity].
Qed.

Lemma rstrip_all_space (w : string) : all_space w = true -> PyStr.rstrip w = EmptyString.
Proof.
  induction w as [|c w IH]; cbn [all_space PyStr.rstrip]; intros H.
  - reflexivity.
  - apply andb_true_iff in H. destruct H as [Hc Hw].
    rewrite (IH Hw), Hc. reflexivity.
Qed.

Lemma rstrip_app_space (s w : string) :
  all_space w = true -> PyStr.rstrip (s ++ w) = PyStr.rstrip s.
Proof.
  intros Hw. induction s as [|c s IH]; cbn [String.append PyStr.rstrip].
  - apply rstrip_all_space; exact Hw.
  - rewrite IH. reflexivity.
Qed.

Lemma lstrip_space_app (w s : string) :
  all_space w = true -> PyStr.lstrip (w ++ s) = PyStr.lstrip s.
Proof.
  induction w as [|c w IH]; cbn [all_space String.append PyStr.lstrip]; intros H.
  - reflexivity.
  - apply andb_true_iff in H. destruct H as [Hc Hw]. rewrite Hc. apply IH; exact Hw.
Qed.

Lemma rstrip_space_app (w s : string) :
  all_space w = true ->
  PyStr.rstrip (w ++ s)
  = match PyStr.rstrip s with
    | EmptyString => EmptyString
    | t => (w ++ t)%string
    end.
Proof.
  induction w as [|c w IH]; cbn [all_space String.append PyStr.rstrip]; intros H.
  - destruct (PyStr.rstrip s); reflexivity.
  - apply andb_true_iff in H. destruct H as [Hc Hw]. rewrite (IH Hw).
    destruct (PyStr.rstrip s) as [|c' t].
    + rewrite Hc. reflexivity.
    + destruct w; reflexivity.
Qed.

Lemma strip_padding (w1 w2 line : string) :
  all_space w1 = true -> all_space w2 = true ->
  PyStr.strip (w1 ++ line ++ w2) = PyStr.strip line.
Proof.
  intros H1 H2. unfold PyStr.strip.
  rewrite (rstrip_space_app w1 _ H1), (rstrip_app_space line w2 H2).
  destruct (PyStr.rstrip line) as [|c t] eqn:E.
  - reflexivity.
  - apply lstrip_space_app; exact H1.
Qed.

(** X7: blanks around a line do not count: padding every line of a file
    on both sides with blanks (spaces, tabs, carriage returns, line feeds)
    changes neither what [DataIter] loads nor what [max_id] returns. *)
Theorem loaders_ignore_padding (Score : Type) (py_float : string -> option Score)
  (w1 w2 : string) (lines : list string) (b : Z) :
  all_space w1 = true -> all_space w2 = true ->
  let padded := map (fun line => (w1 ++ line ++ w2)%string) lines in
  DataIter_init py_float padded b = DataIter_init py_float lines b
  /\ max_id padded = max_id lines.
Proof.
  intros H1 H2 padded. subst padded.
  assert (Ht : forall line, tokens (w1 ++ line ++ w2) = tokens line).
  { intros line. unfold tokens. rewrite (strip_padding w1 w2 line H1 H2).
    reflexivity. }
  split.
  - unfold DataIter_init. rewrite for_in_map.
    rewrite (for_in_same lines _ (init_body py_float)); [reflexivity|].
    intros x t. unfold init_body. rewrite Ht. reflexivity.
  - unfold max_id. rewrite for_in_map.
    rewrite (for_in_same lines _ max_id_body); [reflexivity|].
    intros x [mu mi]. unfold max_id_body. rewrite Ht. reflexivity.
Qed.

Lemma split_length (sep : ascii) (s : string) :
  length (PyStr.split sep s)
  = S ((fix count (s : string) : nat :=
          match s with
          | EmptyString => 0
          | String c r => (if Ascii.eqb c sep then 1 else 0) + count r
          end) s).
Proof.
  induction s as [|c s IH]; cbn [PyStr.split].
  - reflexivity.
  - destruct (Ascii.eqb c sep).
    + cbn [length]. rewrite IH. reflexivity.
    + destruct (PyStr.split sep s) as [|t ts]; cbn [length] in *; [discriminate|].
      rewrite IH. reflexivity.
Qed.

(** X8: a line is kept by the loaders exactly when, once stripped, it
    holds three tab characters; in general it has one token more than it
    has tabs. *)
Theorem kept_lines_have_three_tabs (line : string) :
  length (tokens line) = S (count_tabs (PyStr.strip line))
  /\ (has4 line = true <-> count_tabs (PyStr.strip line) = 3%nat).
Proof.
  assert (H : length (tokens line) = S (count_tabs (PyStr.strip line))).
  { unfold tokens. rewrite split_length. reflexivity. }
  split; [exact H|].
  unfold has4, len. rewrite H. rewrite Z.eqb_eq. lia.
Qed.

(** ** More on loading *)

Lemma Forall2_In_l {A B : Type} (P : A -> B -> Prop) (l1 : list A) (l2 : list B) (x : A) :
  Forall2 P l1 l2 -> In x l1 -> exists y, In y l2 /\ P x y.
Proof.
  induction 1 as [|a b l1 l2 Hab _ IH]; intros Hx; [contradiction|].
  destruct Hx as [->|Hx].
  - exists b. split; [left; reflexivity | exact Hab].
  - destruct (IH Hx) as (y & Hy & Hp). exists y. split; [right; exact Hy | exact Hp].
Qed.

Lemma Forall2_In_r {A B : Type} (P : A -> B -> Prop) (l1 : list A) (l2 : list B) (y : B) :
  Forall2 P l1 l2 -> In y l2 -> exists x, In x l1 /\ P x y.
Proof.
  induction 1 as [|a b l1 l2 Hab _ IH]; intros Hy; [contradiction|].
  destruct Hy as [->|Hy].
  - exists a. split; [left; reflexivity | exact Hab].
  - destruct (IH Hy) as (x & Hx & Hp). exists x. split; [right; exact Hx | exact Hp].
Qed.

Section LoaderMore.

Variable Score : Type.
Variable py_float : string -> option Score.

(** The loop of [__init__] either appends the records of the file or
    raises [ValueError] at a four-token line that does not read as a
    record. *)
Lemma load_outcome (lines : list string) (data0 : list (rating Score)) :
  (exists rs, for_in lines (init_body py_float) data0 = Ok (data0 ++ rs))
  \/ (for_in lines (init_body py_float) data0 = Raise ValueError
      /\ exists line, In line lines /\ has4 line = true
                      /\ forall r, ~ reads_as py_float line r).
Proof.
  revert data0; induction lines as [|line lines IH]; intros data0; cbn [for_in].
  - left. exists []. rewrite app_nil_r. reflexivity.
  - destruct (has4 line) eqn:E.
    + destruct (len_4_inv (tokens line) E) as (a & b & c & d & Ht).
      rewrite (init_body_four _ py_float line a b c d data0 Ht).
      assert (Hbad : PyStr.int_literal a = None \/ PyStr.int_literal b = None
                     \/ py_float c = None ->
                     forall r, ~ reads_as py_float line r).
      { intros Hn r (a' & b' & c' & d' & Ht' & Ha & Hb & Hc).
        rewrite Ht in Ht'. injection Ht' as <- <- <- <-.
        unfold PyStr.py_int in Ha, Hb.
        destruct Hn as [Hn|[Hn|Hn]]; rewrite Hn in *; discriminate. }
      unfold PyStr.py_int.
      destruct (PyStr.int_literal a) as [u|] eqn:Ea.
      2:{ right. split; [reflexivity|]. exists line.
          split; [left; reflexivity|]. split; [exact E|]. apply Hbad; auto. }
      destruct (PyStr.int_literal b) as [i|] eqn:Eb.
      2:{ right. split; [reflexivity|]. exists line.
          split; [left; reflexivity|]. split; [exact E|]. apply Hbad; auto. }
      destruct (py_float c) as [sc|] eqn:Ec.
      2:{ right. split; [reflexivity|]. exists line.
          split; [left; reflexivity|]. split; [exact E|]. apply Hbad; auto. }
      cbn [of_option bind].
      destruct (IH (data0 ++ [(u, i, sc)])) as [(rs & Hrs)|(Hr & l & Hl & Hl4 & Hlb)].
      * left. exists ((u, i, sc) :: rs). rewrite Hrs, <- app_assoc. reflexivity.
      * right. split; [exact Hr|]. exists l. split; [right; exact Hl|].
        split; assumption.
    + rewrite (init_body_skip _ py_float line data0 E). cbn [bind].
      destruct (IH data0) as [(rs & Hrs)|(Hr & l & Hl & Hl4 & Hlb)].
      * left. exists rs. exact Hrs.
      * right. split; [exact Hr|]. exists l. split; [right; exact Hl|].
        split; assumption.
Qed.

(** X9: a load is all or nothing.  [DataIter(...)] either returns or
    raises [ValueError], and it raises exactly when some four-token line
    of the file does not read as a record (an id that is no integer
    literal, or a rating that [float()] rejects), wherever that line is. *)
Theorem load_fails_on_one_bad_line (lines : list string) (b : Z) :
  ((exists self, DataIter_init py_float lines b = Ok self)
   \/ DataIter_init py_float lines b = Raise ValueError)
  /\ (DataIter_init py_float lines b = Raise ValueError <->
      exists line, In line lines /\ has4 line = true
                   /\ forall r, ~ reads_as py_float line r).
Proof.
  unfold DataIter_init.
  destruct (load_outcome lines []) as [(rs & Hrs)|(Hr & Hbad)].
  - rewrite Hrs. cbn [bind]. split.
    + left. eexists; reflexivity.
    + split; [discriminate|].
      intros (line & Hin & H4 & Hno). exfalso.
      destruct (load_reads _ py_float lines [] _ Hrs) as (rs' & _ & Hf).
      assert (Hin' : In line (filter has4 lines)) by (apply filter_In; split; assumption).
      destruct (Forall2_In_l _ _ _ _ Hf Hin') as (r & _ & Hr).
      exact (Hno r Hr).
  - rewrite Hr. cbn [bind]. split.
    + right; reflexivity.
    + split; [intros _; exact Hbad | reflexivity].
Qed.

(** Started from [data0], the loop of [__init__] appends what it appends
    when started from the empty list. *)
Lemma load_appends (lines : list string) (data0 : list (rating Score)) :
  for_in lines (init_body py_float) data0
  = (rs <- for_in lines (init_body py_float) [] ;; Ok (data0 ++ rs)).
Proof.
  destruct (load_outcome lines []) as [(rs & Hrs)|(Hr & _)].
  - rewrite Hrs. cbn [bind app].
    destruct (load_reads _ py_float lines [] _ Hrs) as (rs' & E & Hf).
    cbn [app] in E. subst rs'.
    apply load_total; exact Hf.
  - rewrite Hr. cbn [bind].
    destruct (load_outcome lines data0) as [(rs & Hrs)|(Hr' & _)]; [|exact Hr'].
    exfalso.
    destruct (load_reads _ py_float lines data0 _ Hrs) as (rs' & _ & Hf).
    rewrite (load_total _ py_float lines [] rs' Hf) in Hr. discriminate.
Qed.

(** X10: loading composes over concatenation: the file [f1 ++ f2] loads
    when [f1] and [f2] both load, into the records of [f1] followed by the
    records of [f2]; it raises what the first failing part raises. *)
Theorem load_concatenation (f1 f2 : list string) (b : Z) :
  DataIter_init py_float (f1 ++ f2) b
  = (s1 <- DataIter_init py_float f1 b ;;
     s2 <- DataIter_init py_float f2 b ;;
     Ok {| batch_size := b;
           data := data s1 ++ data s2;
           provide_data := [("user", [b]); ("item", [b])]%string;
           provide_label := [("score", [b])]%string |}).
Proof.
  unfold DataIter_init. rewrite for_in_app.
  destruct (for_in f1 (init_body py_float) []) as [d1|e]; cbn [bind]; [|reflexivity].
  rewrite (load_appends f2 d1).
  destruct (for_in f2 (init_body py_float) []) as [d2|e]; reflexivity.
Qed.

(** *** [max_id] *)

(** X11: the sizes computed on a whole file bound the ids loaded from any
    part of it, as the notebook uses them ([max_id] of [u.data], iterators
    over [u1.base] and [u1.test]): if every four-token line of [part]
    is a line of [full] and [max_id(full)] returns [(mu, mi)], every record
    that [DataIter] loads from [part] has its user id below [mu] and its
    item id below [mi]. *)
Theorem max_id_of_whole_bounds_part (full part : list string) (b mu mi : Z)
  (self : DataIter Score) :
  (forall line, In line part -> has4 line = true -> In line full) ->
  max_id full = Ok (mu, mi) ->
  DataIter_init py_float part b = Ok self ->
  Forall (fun r => (user r < mu)%Z /\ (item r < mi)%Z) (data self).
Proof.
  intros Hsub Hmax Hload. unfold max_id in Hmax.
  destruct (for_in full max_id_body (0%Z, 0%Z)) as [[m i]|e] eqn:Hloop;
    [|discriminate].
  cbn [bind] in Hmax. injection Hmax as <- <-.
  destruct (max_id_loop_covers full 0 0 m i Hloop) as (_ & _ & Hall).
  pose proof (init_reads _ py_float part b self Hload) as Hf.
  apply Forall_forall. intros r Hr.
  destruct (Forall2_In_r _ _ _ _ Hf Hr) as (line & Hline & a & bb & c & d & Ht & Ha & Hb & _).
  apply filter_In in Hline. destruct Hline as [Hin H4].
  destruct (Hall line a bb c d (user r) (item r) (Hsub line Hin H4) Ht Ha Hb).
  split; lia.
Qed.

Lemma max_id_loop_shift (lines : list string) (m0 i0 m i m1 i1 : Z) :
  for_in lines max_id_body (m0, i0) = Ok (m, i) ->
  for_in lines max_id_body (Z.max m0 m1, Z.max i0 i1)
  = Ok (Z.max m m1, Z.max i i1).
Proof.
  revert m0 i0; induction lines as [|line lines IH]; intros m0 i0 H;
    cbn [for_in] in *.
  - injection H as <- <-. reflexivity.
  - destruct (has4 line) eqn:E.
    + destruct (len_4_inv (tokens line) E) as (a & b & c & d & Ht).
      rewrite (max_id_body_four line a b c d m0 i0 Ht) in H.
      rewrite (max_id_body_four line a b c d _ _ Ht).
      destruct (PyStr.py_int a) as [u|]; [|discriminate].
      destruct (PyStr.py_int b) as [v|]; [|discriminate].
      cbn [bind] in *.
      replace (Z.max (Z.max m0 m1) u) with (Z.max (Z.max m0 u) m1) by lia.
      replace (Z.max (Z.max i0 i1) v) with (Z.max (Z.max i0 v) i1) by lia.
      apply IH; exact H.
    + rewrite (max_id_body_skip line (m0, i0) E) in H.
      rewrite (max_id_body_skip line _ E). cbn [bind] in *.
      apply IH; exact H.
Qed.

End LoaderMore.

(** X12: [max_id] never returns a size below [1], and on a concatenation
    it returns the componentwise maximum of what it returns on the
    parts. *)
Theorem max_id_concatenation (f1 f2 : list string) (a1 b1 a2 b2 : Z) :
  max_id f1 = Ok (a1, b1) -> max_id f2 = Ok (a2, b2) ->
  (1 <= a1)%Z /\ (1 <= b1)%Z
  /\ max_id (f1 ++ f2) = Ok (Z.max a1 a2, Z.max b1 b2).
Proof.
  unfold max_id. intros H1 H2.
  destruct (for_in f1 max_id_body (0%Z, 0%Z)) as [[m1 i1]|e] eqn:E1; [|discriminate].
  destruct (for_in f2 max_id_body (0%Z, 0%Z)) as [[m2 i2]|e] eqn:E2; [|discriminate].
  cbn [bind] in H1, H2. injection H1 as <- <-. injection H2 as <- <-.
  destruct (max_id_loop_covers f1 0 0 m1 i1 E1) as (Hm1 & Hi1 & _).
  repeat split; try lia.
  rewrite for_in_app, E1. cbn [bind].
  pose proof (max_id_loop_shift f2 0 0 m2 i2 m1 i1 E2) as Hs.
  rewrite !Z.max_r in Hs by lia. rewrite Hs. cbn [bind].
  do 2 f_equal; lia.
Qed.

Lemma max_id_body_agree2 (x y : string) (st : Z * Z) :
  has4 x = true -> has4 y = true -> agree2 x y ->
  max_id_body x st = max_id_body y st.
Proof.
  intros Hx Hy Hxy. destruct st as [mu mi].
  destruct (len_4_inv (tokens x) Hx) as (a & b & c & d & Ex).
  destruct (len_4_inv (tokens y) Hy) as (a' & b' & c' & d' & Ey).
  unfold agree2 in Hxy. rewrite Ex, Ey in Hxy. cbn [firstn] in Hxy.
  injection Hxy as <- <-.
  rewrite (max_id_body_four x a b c d mu mi Ex), (max_id_body_four y a b c' d' mu mi Ey).
  reflexivity.
Qed.

(** X13: [max_id] reads the first two columns only: two files whose
    four-token lines agree, one by one, on their first two tokens give
    the same result, whatever their ratings and timestamps are. *)
Theorem max_id_reads_two_columns (f1 f2 : list string) :
  Forall2 agree2 (filter has4 f1) (filter has4 f2) ->
  max_id f1 = max_id f2.
Proof.
  intros H. rewrite (max_id_filtered f1), (max_id_filtered f2). unfold max_id.
  assert (Hloop : forall st, for_in (filter has4 f1) max_id_body st
                             = for_in (filter has4 f2) max_id_body st).
  { pose proof (Forall_filter_has4 f1) as H1.
    pose proof (Forall_filter_has4 f2) as H2.
    induction H as [|x y l1 l2 Hxy _ IH]; intros st; cbn [for_in].
    - reflexivity.
    - inversion H1; subst. inversion H2; subst.
      rewrite (max_id_body_agree2 x y st) by assumption.
      destruct (max_id_body y st) as [t|e]; cbn [bind];
        [apply IH; assumption | reflexivity]. }
  rewrite Hloop. reflexivity.
Qed.

(** ** More on the iterator *)

Lemma in_firstn {A : Type} (n : nat) (l : list A) (x : A) :
  In x (firstn n l) -> In x l.
Proof.
  intros H. rewrite <- (firstn_skipn n l). apply in_or_app. left. exact H.
Qed.

Section IteratorMore.

Variable Score : Type.
Variable py_float : string -> option Score.
Variable F32 : Type.
Variable f32_of_int : Z -> F32.
Variable f32_of_float : Score -> F32.

(** X14: when the batch size divides the number of records, one full
    iteration yields every record exactly once, in the order of
    [self.data], each as the arrays store it (converted to [float32]). *)
Theorem iter_covers_data_when_divisible (self : DataIter Score) :
  (0 < batch_size self)%Z ->
  (len (data self) mod batch_size self = 0)%Z ->
  exists batches : list (Batch F32),
    DataIter_iter f32_of_int f32_of_float self = Ok batches
    /\ flat_map (@records_of F32) batches
       = map (stored f32_of_int f32_of_float) (data self).
Proof.
  intros Hb Hmod. eexists. split; [apply iter_value; exact Hb|].
  rewrite records_of_slices. f_equal. apply firstn_all2.
  pose proof (Z.div_mod (len (data self)) (batch_size self) ltac:(lia)) as Hd.
  assert (Hq : (0 <= len (data self) / batch_size self)%Z)
    by (apply Z.div_pos; unfold len; lia).
  rewrite <- Z2Nat.inj_mul by lia. unfold len in *.
  rewrite <- (Nat2Z.id (length (data self))) at 1.
  apply Z2Nat.inj_le; lia.
Qed.

(** X15: the iterations that yield nothing.  With fewer records than the
    batch size the iteration ends at once and every record is dropped;
    with a negative batch size it yields nothing either; with batch size
    [0] it raises [ZeroDivisionError]. *)
Theorem iter_yields_nothing (self : DataIter Score) :
  ((0 < batch_size self)%Z -> (len (data self) < batch_size self)%Z ->
   DataIter_iter f32_of_int f32_of_float self = Ok [])
  /\ ((batch_size self < 0)%Z -> DataIter_iter f32_of_int f32_of_float self = Ok [])
  /\ (batch_size self = 0%Z -> DataIter_iter f32_of_int f32_of_float self = Raise ZeroDivisionError).
Proof.
  split; [|split].
  - intros Hb Hn. rewrite (iter_value _ _ f32_of_int f32_of_float self Hb).
    rewrite Z.div_small by (unfold len in *; lia). reflexivity.
  - apply iter_nonpositive.
  - intros Hz. unfold DataIter_iter, py_floordiv. rewrite Hz. reflexivity.
Qed.

(** X16: [reset] leaves an iterator with fewer than two records as it
    is: the exchange loop of the shuffle does not run. *)
Theorem reset_of_short_data (choice : Z -> Z) (self : DataIter Score) :
  (length (data self) <= 1)%nat ->
  DataIter_reset choice self = Ok self.
Proof.
  intros H. unfold DataIter_reset, random_shuffle, py_xrange.
  rewrite py_range_nonpos by (unfold len; lia).
  cbn [map rev for_in bind]. destruct self; reflexivity.
Qed.

(** X17: an epoch after [reset] is as long as an epoch before it, and it
    yields records of the iterator only: with a positive batch size, the
    iteration of the reset iterator returns as many batches as the
    iteration of the iterator did, each of [batch_size] records, every one
    of them a record of [self.data] as the arrays store it. *)
Theorem iter_after_reset (choice : Z -> Z) (self : DataIter Score) :
  (0 < batch_size self)%Z ->
  exists (self' : DataIter Score) (before after : list (Batch F32)),
    DataIter_reset choice self = Ok self'
    /\ DataIter_iter f32_of_int f32_of_float self = Ok before
    /\ DataIter_iter f32_of_int f32_of_float self' = Ok after
    /\ length after = length before
    /\ Forall (fun B => len (records_of B) = batch_size self) after
    /\ forall r, In r (flat_map (@records_of F32) after) ->
                 exists r0, In r0 (data self)
                            /\ r = stored f32_of_int f32_of_float r0.
Proof.
  intros Hb. unfold DataIter_reset.
  destruct (random_shuffle_Permutation choice (data self)) as (d & -> & P).
  cbn [bind].
  set (self' := {| batch_size := batch_size self; data := d;
                   provide_data := provide_data self;
                   provide_label := provide_label self |}).
  exists self'. do 2 eexists.
  split; [reflexivity|].
  split; [apply iter_value; exact Hb|].
  split; [apply (iter_value _ _ f32_of_int f32_of_float self'); exact Hb|].
  assert (Hlen : length d = length (data self))
    by (symmetry; apply Permutation_length; exact P).
  cbn [batch_size data self'].
  split; [|split].
  - rewrite !length_map, !length_seq. unfold len. rewrite Hlen. reflexivity.
  - apply Forall_forall. intros B HB.
    apply in_map_iff in HB. destruct HB as (k & <- & Hk). apply in_seq in Hk.
    rewrite (records_of_batch_of). unfold len. rewrite length_map.
    rewrite slice_length; cbn [batch_size data self']; [lia|].
    assert (Hn : (0 <= len d)%Z) by (unfold len; lia).
    pose proof (full_batches_fit (len d) (batch_size self) Hn Hb) as Hfit.
    unfold len in Hfit at 2. rewrite Nat2Z.id in Hfit.
    apply Nat.le_trans
      with (Z.to_nat (len d / batch_size self) * Z.to_nat (batch_size self))%nat;
      [|exact Hfit].
    apply Nat.mul_le_mono_r. lia.
  - intros r Hr. rewrite (records_of_slices _ _ f32_of_int f32_of_float self') in Hr.
    cbn [batch_size data self'] in Hr.
    apply in_map_iff in Hr. destruct Hr as (r0 & <- & Hr0).
    exists r0. split; [|reflexivity].
    apply (Permutation_in r0 (Permutation_sym P)).
    exact (in_firstn _ _ _ Hr0).
Qed.

Lemma combine_fst {A B : Type} (l1 : list A) (l2 : list B) :
  map fst (combine l1 l2) = firstn (length l2) l1.
Proof.
  revert l2; induction l1 as [|a l1 IH]; intros [|b l2]; cbn; try reflexivity.
  f_equal. apply IH.
Qed.

Lemma combine_snd {A B : Type} (l1 : list A) (l2 : list B) :
  map snd (combine l1 l2) = firstn (length l1) l2.
Proof.
  revert l2; induction l1 as [|a l1 IH]; intros [|b l2]; cbn; try reflexivity.
  f_equal. apply IH.
Qed.

(** X18: [provide_data] and [provide_label] of a batch pair the names
    with the shapes of the arrays position by position and stop at the
    shorter of the two lists: a name without an array, or an array
    without a name, is left out without an error. *)
Theorem Batch_provide_pairs_by_position (B : Batch F32) :
  map fst (Batch_provide_data B)
  = firstn (length (Batch_data B)) (Batch_data_names B)
  /\ map snd (Batch_provide_data B)
     = map (@shape F32) (firstn (length (Batch_data_names B)) (Batch_data B))
  /\ map fst (Batch_provide_label B)
     = firstn (length (Batch_label B)) (Batch_label_names B)
  /\ map snd (Batch_provide_label B)
     = map (@shape F32) (firstn (length (Batch_label_names B)) (Batch_label B)).
Proof.
  unfold Batch_provide_data, Batch_provide_label.
  rewrite !map_map.
  assert (F : forall (A : Type) (ns : list string) (xs : list (ndarray A)),
             map (fun p => fst (let '(n, x) := p in (n, shape x))) (combine ns xs)
             = firstn (length xs) ns
             /\ map (fun p => snd (let '(n, x) := p in (n, shape x))) (combine ns xs)
                = map (@shape A) (firstn (length ns) xs)).
  { intros A ns xs. rewrite <- combine_fst, <- combine_snd, map_map.
    split; apply map_ext; intros [n x]; reflexivity. }
  destruct (F F32 (Batch_data_names B) (Batch_data B)) as [F1 F2].
  destruct (F F32 (Batch_label_names B) (Batch_label B)) as [F3 F4].
  repeat split; assumption.
Qed.

(** X19: [train] trains on batches of [64] whatever [batch_size] it is
    called with: the iterators it builds are those of [get_data(64)];
    when it builds them, both have batch size [64] and declare the same
    shapes, and an epoch over either returns [n / 64] batches of [64]
    records. *)
Theorem train_uses_batches_of_64 (u1_base u1_test : list string) (batch_size0 : Z) :
  train_data py_float u1_base u1_test batch_size0
  = get_data py_float u1_base u1_test 64
  /\ forall train test : DataIter Score,
       train_data py_float u1_base u1_test batch_size0 = Ok (train, test) ->
       batch_size train = 64%Z /\ batch_size test = 64%Z
       /\ provide_data train = provide_data test
       /\ provide_label train = provide_label test
       /\ forall it, it = train \/ it = test ->
            exists batches : list (Batch F32),
              DataIter_iter f32_of_int f32_of_float it = Ok batches
              /\ len batches = (len (data it) / 64)%Z
              /\ Forall (fun B => len (records_of B) = 64%Z) batches.
Proof.
  assert (E : train_data py_float u1_base u1_test batch_size0
              = get_data py_float u1_base u1_test 64).
  { unfold train_data.
    destruct (get_data py_float u1_base u1_test 64) as [[tr te]|e]; reflexivity. }
  split; [exact E|].
  intros train test H. rewrite E in H. unfold get_data in H.
  destruct (DataIter_init py_float u1_base 64) as [tr|e] eqn:E1; [|discriminate].
  destruct (DataIter_init py_float u1_test 64) as [te|e] eqn:E2; [|discriminate].
  cbn [bind] in H. injection H as <- <-.
  destruct (init_data _ py_float _ _ _ E1) as [_ B1].
  destruct (init_data _ py_float _ _ _ E2) as [_ B2].
  destruct (constructed_declares _ py_float tr (constructed_init py_float _ _ E1)) as [P1 L1].
  destruct (constructed_declares _ py_float te (constructed_init py_float _ _ E2)) as [P2 L2].
  split; [exact B1|]. split; [exact B2|].
  split; [rewrite P1, P2, B1, B2; reflexivity|].
  split; [rewrite L1, L2, B1, B2; reflexivity|].
  assert (G : forall it : DataIter Score, batch_size it = 64%Z ->
              exists batches : list (Batch F32),
                DataIter_iter f32_of_int f32_of_float it = Ok batches
                /\ len batches = (len (data it) / 64)%Z
                /\ Forall (fun B => len (records_of B) = 64%Z) batches).
  { intros it Hit. eexists. split; [apply iter_value; lia|]. rewrite Hit.
    assert (Hq : (0 <= len (data it) / 64)%Z) by (apply Z.div_pos; unfold len; lia).
    split.
    - unfold len at 1. rewrite length_map, length_seq. lia.
    - apply Forall_forall. intros B HB.
      apply in_map_iff in HB. destruct HB as (k & <- & Hk). apply in_seq in Hk.
      rewrite (records_of_batch_of). unfold len at 1. rewrite length_map.
      rewrite slice_length; rewrite Hit; [reflexivity|].
      assert (Hn : (0 <= len (data it))%Z) by (unfold len; lia).
      pose proof (full_batches_fit (len (data it)) 64 Hn ltac:(lia)) as Hfit.
      unfold len in Hfit at 2. rewrite Nat2Z.id in Hfit.
      apply Nat.le_trans with (Z.to_nat (len (data it) / 64) * Z.to_nat 64)%nat;
        [|exact Hfit].
      apply Nat.mul_le_mono_r. lia. }
  intros it [->| ->]; apply G; assumption.
Qed.

(** X20: the three networks read the variables that the iterator
    provides, in its order: the names of [provide_data] followed by the
    names of [provide_label] of an iterator made by [DataIter(...)] are
    the variables [user], [item], [score] of [plain_net],
    [get_one_layer_mlp] and [get_one_layer_dropout_mlp]; and in each
    network the table looked up by [user] has [max_user] rows and the
    table looked up by [item] has [max_item] rows. *)
Theorem networks_read_iterator_names (self : DataIter Score)
  (max_user max_item hidden k : Z) :
  constructed py_float self ->
  let names := map fst (provide_data self ++ provide_label self) in
  let tables := [(["user"], max_user); (["item"], max_item)]%string in
  (variables (plain_net max_user max_item k) = names
   /\ embeddings (plain_net max_user max_item k) = tables)
  /\ (variables (get_one_layer_mlp max_user max_item hidden k) = names
      /\ embeddings (get_one_layer_mlp max_user max_item hidden k) = tables)
  /\ (variables (get_one_layer_dropout_mlp max_user max_item hidden k) = names
      /\ embeddings (get_one_layer_dropout_mlp max_user max_item hidden k) = tables).
Proof.
  intros Hc names tables.
  destruct (constructed_declares _ py_float self Hc) as [Hd Hl].
  subst names. rewrite Hd, Hl. repeat split; reflexivity.
Qed.

End IteratorMore.

(** ** The further properties on the example file *)

Lemma loaders_ignore_padding_witness :
  let padded := map (fun line => (blank ++ line ++ crlf)%string) example_file in
  DataIter_init float_of_int_literal padded 2%Z
  = DataIter_init float_of_int_literal example_file 2%Z
  /\ max_id padded = max_id example_file.
Proof.
  apply (loaders_ignore_padding R float_of_int_literal blank crlf example_file 2%Z);
    reflexivity.
Defined.

Lemma max_id_of_whole_bounds_part_witness :
  Forall (fun r => (user r < 4)%Z /\ (item r < 31)%Z)
         (data (example_part_iter 1%Z)).
Proof.
  apply (max_id_of_whole_bounds_part R float_of_int_literal
           example_file example_part 1%Z 4%Z 31%Z (example_part_iter 1%Z)).
  - intros line [<-|[<-|[]]] H4.
    + right; right; left; reflexivity.
    + vm_compute in H4. discriminate H4.
  - reflexivity.
  - reflexivity.
Defined.

Lemma max_id_concatenation_witness :
  (1 <= 4)%Z /\ (1 <= 31)%Z
  /\ max_id (example_file ++ example_part) = Ok (Z.max 4 3, Z.max 31 21).
Proof.
  apply (max_id_concatenation example_file example_part 4%Z 31%Z 3%Z 21%Z);
    reflexivity.
Defined.

Lemma max_id_reads_two_columns_witness :
  max_id example_file = max_id example_file_unrated.
Proof.
  apply (max_id_reads_two_columns example_file example_file_unrated).
  simpl. repeat constructor.
Defined.

Lemma iter_covers_data_when_divisible_witness :
  exists batches : list (Batch R),
    DataIter_iter exact_of_int exact_of_float (example_iter_of 3%Z) = Ok batches
    /\ flat_map (@records_of R) batches
       = map (stored exact_of_int exact_of_float) (data (example_iter_of 3%Z)).
Proof.
  apply (iter_covers_data_when_divisible R R exact_of_int exact_of_float
           (example_iter_of 3%Z)); reflexivity.
Defined.

Lemma iter_yields_nothing_witness :
  DataIter_iter exact_of_int exact_of_float (example_iter_of 5%Z) = Ok []
  /\ DataIter_iter exact_of_int exact_of_float (example_iter_of (-2)%Z) = Ok []
  /\ DataIter_iter exact_of_int exact_of_float (example_iter_of 0%Z) = Raise ZeroDivisionError.
Proof.
  split; [|split].
  - apply (proj1 (iter_yields_nothing R R exact_of_int exact_of_float (example_iter_of 5%Z))); reflexivity.
  - apply (proj1 (proj2 (iter_yields_nothing R R exact_of_int exact_of_float (example_iter_of (-2)%Z)))).
    reflexivity.
  - apply (proj2 (proj2 (iter_yields_nothing R R exact_of_int exact_of_float (example_iter_of 0%Z)))).
    reflexivity.
Defined.

Lemma reset_of_short_data_witness :
  DataIter_reset (fun _ => 0%Z) (example_part_iter 1%Z)
  = Ok (example_part_iter 1%Z).
Proof.
  apply (reset_of_short_data R (fun _ => 0%Z) (example_part_iter 1%Z)).
  simpl. lia.
Defined.

Lemma iter_after_reset_witness :
  exists (self' : DataIter R) (before after : list (Batch R)),
    DataIter_reset (fun _ => 0%Z) example_iter = Ok self'
    /\ DataIter_iter exact_of_int exact_of_float example_iter = Ok before
    /\ DataIter_iter exact_of_int exact_of_float self' = Ok after
    /\ length after = length before
    /\ Forall (fun B => len (records_of B) = batch_size example_iter) after
    /\ forall r, In r (flat_map (@records_of R) after) ->
                 exists r0, In r0 (data example_iter)
                            /\ r = stored exact_of_int exact_of_float r0.
Proof.
  apply (iter_after_reset R R exact_of_int exact_of_float (fun _ => 0%Z) example_iter).
  reflexivity.
Defined.

Lemma train_uses_batches_of_64_witness :
  batch_size (example_iter_of 64%Z) = 64%Z
  /\ batch_size (example_part_iter 64%Z) = 64%Z
  /\ provide_data (example_iter_of 64%Z) = provide_data (example_part_iter 64%Z)
  /\ provide_label (example_iter_of 64%Z) = provide_label (example_part_iter 64%Z)
  /\ forall it, it = example_iter_of 64%Z \/ it = example_part_iter 64%Z ->
       exists batches : list (Batch R),
         DataIter_iter exact_of_int exact_of_float it = Ok batches
         /\ len batches = (len (data it) / 64)%Z
         /\ Forall (fun B => len (records_of B) = 64%Z) batches.
Proof.
  apply (proj2 (train_uses_batches_of_64 R float_of_int_literal R exact_of_int
                  exact_of_float example_file example_part 7%Z)).
  reflexivity.
Defined.

Lemma networks_read_iterator_names_witness :
  let names := map fst (provide_data example_iter ++ provide_label example_iter) in
  let tables := [(["user"], 4%Z); (["item"], 31%Z)]%string in
  (variables (plain_net 4 31 64) = names
   /\ embeddings (plain_net 4 31 64) = tables)
  /\ (variables (get_one_layer_mlp 4 31 64 64) = names
      /\ embeddings (get_one_layer_mlp 4 31 64 64) = tables)
  /\ (variables (get_one_layer_dropout_mlp 4 31 64 64) = names
      /\ embeddings (get_one_layer_dropout_mlp 4 31 64 64) = tables).
Proof.
  apply (networks_read_iterator_names R float_of_int_literal example_iter
           4%Z 31%Z 64%Z 64%Z).
  apply (constructed_init float_of_int_literal example_file 2%Z).
  reflexivity.
Defined.

Lemma kept_lines_have_three_tabs_witness :
  length (tokens (tsv ["1"; "10"; "3"; "881250949"]%string))
  = S (count_tabs (PyStr.strip (tsv ["1"; "10"; "3"; "881250949"]%string)))
  /\ (has4 (tsv ["1"; "10"; "3"; "881250949"]%string) = true <->
      count_tabs (PyStr.strip (tsv ["1"; "10"; "3"; "881250949"]%string)) = 3%nat).
Proof.
  apply (kept_lines_have_three_tabs (tsv ["1"; "10"; "3"; "881250949"]%string)).
Defined.

Lemma load_fails_on_one_bad_line_witness :
  DataIter_init float_of_int_literal example_file_unrated 2%Z = Raise ValueError.
Proof.
  apply (proj2 (load_fails_on_one_bad_line R float_of_int_literal
                  example_file_unrated 2%Z)).
  exists (tsv ["1"; "10"; "good"; "x"]%string).
  split; [left; reflexivity|]. split; [reflexivity|].
  intros r (a & b & c & d & Ht & _ & _ & Hc).
  vm_compute in Ht. injection Ht as <- <- <- <-.
  vm_compute in Hc. discriminate Hc.
Defined.

(** ** RMSE on the element types of the arrays *)

Lemma for_in_ext_in {I S : Type} (xs : list I) (f g : I -> S -> result S) (s : S) :
  (forall x t, In x xs -> f x t = g x t) -> for_in xs f s = for_in xs g s.
Proof.
  revert s; induction xs as [|x xs IH]; intros s H; cbn [for_in].
  - reflexivity.
  - rewrite (H x s (or_introl eq_refl)).
    destruct (g x s) as [s'|e]; cbn [bind]; [|reflexivity].
    apply IH. intros y t Hy. apply H. right; exact Hy.
Qed.

Section DtypeFacts.

Import Dtype.

Variables L P : Type.

(** The squared difference of two elements as a double, for element types
    whose arithmetic and conversion never raise (the arrays of numpy). *)
Variable sq : L -> P -> PrimFloat.float.

Let sq_err : L -> P -> result PrimFloat.float := fun l p => Ok (sq l p).






End DtypeFacts.

Section DtypeLists.

Import Dtype.

Lemma wrap64_small (z : Z) : (- 2 ^ 63 <= z < 2 ^ 63)%Z -> wrap64 z = z.
Proof.
  intros H. unfold wrap64. rewrite Z.mod_small; [lia|].
  change (2 ^ 64)%Z with (2 ^ 63 + 2 ^ 63)%Z. lia.
Qed.

Lemma sq_err_no_wrap (l p : Z) : no_wrap l p -> sq_err_pyint l p = sq_err_int64 l p.
Proof.
  intros [Hd Hsq]. unfold sq_err_pyint, sq_err_int64, py_float_of_int.
  rewrite (wrap64_small (l - p) Hd).
  assert (H0 : (0 <= (l - p) * (l - p))%Z) by apply Z.square_nonneg.
  rewrite wrap64_small by lia.
  assert (Hbig : (2 ^ 63 < 2 ^ 1024 - 2 ^ 970)%Z) by reflexivity.
  destruct (Z.ltb_spec (Z.abs ((l - p) * (l - p))) (2 ^ 1024 - 2 ^ 970)) as [_|H];
    [reflexivity|].
  rewrite Z.abs_eq in H by exact H0. lia.
Qed.

(** C10, amended: on lists of Python floats [test_RMSE] computes inline
    what [RMSE] returns on the same sequences as [float64] arrays; on
    non-empty lists of Python integers of equal length it computes what
    [RMSE] returns on them as [int64] arrays whenever every difference
    [label[i] - pred[i]] and its square fit 64 bits. *)
Theorem test_RMSE_agrees_with_RMSE_without_wrap :
  (forall label pred : list PrimFloat.float,
      test_RMSE_value sq_err_float64 label pred
      = RMSE sq_err_float64 label (nd_array pred))
  /\ (forall label pred : list Z,
        label <> [] -> length label = length pred ->
        (forall i, (i < length label)%nat ->
                   no_wrap (nth i label 0%Z) (nth i pred 0%Z)) ->
        test_RMSE_value sq_err_pyint label pred
        = RMSE sq_err_int64 label (nd_array pred)).
Proof.
  split.
  - intros label pred. reflexivity.
  - intros label pred Hne Hlen Hfit. unfold test_RMSE_value, RMSE.
    cbn [flatten nd_array elems].
    rewrite (for_in_ext_in _ (loop_body sq_err_pyint label pred)
               (loop_body sq_err_int64 label pred)); [reflexivity|].
    intros i [ret n] Hi. apply in_py_range in Hi.
    unfold loop_body, len in *.
    rewrite <- (Z2Nat.id i) by lia.
    rewrite (getitem_nth label (Z.to_nat i) 0%Z) by lia.
    rewrite (getitem_nth pred (Z.to_nat i) 0%Z) by lia.
    cbn [bind]. rewrite sq_err_no_wrap; [reflexivity|].
    apply Hfit. lia.
Qed.

End DtypeLists.





Lemma test_RMSE_agrees_with_RMSE_without_wrap_witness :
  Dtype.test_RMSE_value Dtype.sq_err_pyint [1; 5]%Z [6; 10]%Z
  = Dtype.RMSE Dtype.sq_err_int64 [1; 5]%Z (nd_array [6; 10]%Z).
Proof.
  apply (proj2 test_RMSE_agrees_with_RMSE_without_wrap [1; 5]%Z [6; 10]%Z).
  - discriminate.
  - reflexivity.
  - intros i Hi. unfold Dtype.no_wrap.
    destruct i as [|[|i]]; [| |simpl in Hi; lia]; simpl; split; lia.
Defined.

(** C10 as stated fails on integers: on the lists [[0]] and
    [[4000000000]] the inline value of [test_RMSE] is [4000000000.0],
    and [RMSE] on the same numbers as an [int64] array raises
    [ValueError]. *)
Lemma test_RMSE_differs_from_RMSE_on_int64 :
  Dtype.test_RMSE_value Dtype.sq_err_pyint [0%Z] [4000000000%Z]
  = Ok (Dtype.float_of_Z 4000000000)
  /\ Dtype.RMSE Dtype.sq_err_int64 [0%Z] (nd_array [4000000000%Z])
     = Raise ValueError.
Proof. split; vm_compute; reflexivity. Qed.
